(** * yk-dns-manager: domain map, hostname helpers, DNS provider and
    HTTPRoute reconciler

    A shallow embedding of the Go sources
      - [internal/config] (DomainMap.LookupIP),
      - [internal/dns] (Record, Provider, SplitHostname),
      - [internal/dns/opnsense] (the OPNsense Unbound provider),
      - [internal/controller] (HTTPRouteReconciler.Reconcile),
    together with the properties of the design document that concern them.

    Go strings are byte strings: they are [string] here, one [ascii] per
    byte.  Go [int] indices are [Z] so that the "not found" value [-1] of
    [strings.Index] can be written as in the source. *)

From Stdlib Require Import ZArith Lia Ascii.
From stdpp Require Import base gmap strings list pretty.

(** ** The part of Go's [strings] package the program uses *)

Module GoStrings.

(** [len(s)] *)
Definition len (s : string) : Z := Z.of_nat (String.length s).

Fixpoint drop_bytes (n : nat) (s : string) : string :=
  match n, s with
  | O, _ => s
  | S n', String _ s' => drop_bytes n' s'
  | S _, EmptyString => EmptyString
  end.

Fixpoint take_bytes (n : nat) (s : string) : string :=
  match n, s with
  | O, _ => EmptyString
  | S n', String c s' => String c (take_bytes n' s')
  | S _, EmptyString => EmptyString
  end.

(** [s[i:]] and [s[:j]].  Go panics on an index outside [0..len(s)];
    every slice the program takes is inside that range (see
    [Index_range]). *)
Definition slice_from (s : string) (i : Z) : string := drop_bytes (Z.to_nat i) s.
Definition slice_to (s : string) (j : Z) : string := take_bytes (Z.to_nat j) s.

(** [strings.HasPrefix(s, prefix)] *)
Fixpoint HasPrefix (s prefix : string) {struct prefix} : bool :=
  match prefix, s with
  | EmptyString, _ => true
  | String a p', String b s' => bool_decide (a = b) && HasPrefix s' p'
  | String _ _, EmptyString => false
  end.

(** [strings.HasSuffix(s, suffix)]:
    [len(s) >= len(suffix) && s[len(s)-len(suffix):] == suffix] *)
Definition HasSuffix (s suffix : string) : bool :=
  (len suffix <=? len s)%Z
  && bool_decide (slice_from s (len s - len suffix) = suffix).

(** [strings.TrimSuffix(s, suffix)] *)
Definition TrimSuffix (s suffix : string) : string :=
  if HasSuffix s suffix then slice_to s (len s - len suffix) else s.

(** [strings.Index(s, substr)]: the byte offset of the first occurrence
    of [substr] in [s], or [-1]. *)
Fixpoint Index (s substr : string) {struct s} : Z :=
  if HasPrefix s substr then 0%Z
  else match s with
       | EmptyString => (-1)%Z
       | String _ s' =>
           let r := Index s' substr in
           if (r <? 0)%Z then (-1)%Z else (r + 1)%Z
       end.

(** The loop of Go's [genSplit] for a non-empty separator: at most [k]
    cuts, the rest of the string is the last piece. *)
Fixpoint splitLoop (k : nat) (s sep : string) : list string :=
  match k with
  | O => [s]
  | S k' =>
      let m := Index s sep in
      if (m <? 0)%Z then [s]
      else slice_to s m :: splitLoop k' (slice_from s (m + len sep)) sep
  end.

(** [strings.SplitN(s, sep, n)] for a non-empty [sep] (the only use in
    the program is [SplitN(fqdn, ".", 2)]): [n = 0] gives no piece,
    [n < 0] all of them, and [n] is capped at [len(s) + 1] as in
    [genSplit]. *)
Definition SplitN (s sep : string) (n : Z) : list string :=
  if (n =? 0)%Z then []
  else
    let n := if (n <? 0)%Z then (len s + 1)%Z else n in
    let n := if (len s + 1 <? n)%Z then (len s + 1)%Z else n in
    splitLoop (Z.to_nat (n - 1)) s sep.

(** [strings.Join(elems, sep)] *)
Fixpoint Join (elems : list string) (sep : string) : string :=
  match elems with
  | [] => EmptyString
  | [e] => e
  | e :: rest => e +:+ sep +:+ Join rest sep
  end.

End GoStrings.
Import GoStrings.

(** ** Labels of a host name

    Auxiliary, specification-level view of a name as its dot-separated
    labels; none of this is in the source, it is what the properties
    below are stated with. *)

(** [cut_label s]: the first label of [s] and what follows the first dot,
    or [None] when [s] has no dot. *)
Fixpoint cut_label (s : string) : option (string * string) :=
  match s with
  | EmptyString => None
  | String c s' =>
      if bool_decide (c = "."%char) then Some (EmptyString, s')
      else match cut_label s' with
           | Some (l, r) => Some (String c l, r)
           | None => None
           end
  end.

(** All labels of [s]; a name without a dot is its own single label. *)
Fixpoint labels (s : string) : list string :=
  match s with
  | EmptyString => [EmptyString]
  | String c s' =>
      if bool_decide (c = "."%char) then EmptyString :: labels s'
      else match labels s' with
           | l :: ls => String c l :: ls
           | [] => [String c EmptyString]
           end
  end.

(** [s] contains no dot. *)
Definition dotless (s : string) : Prop := cut_label s = None.


(** ** internal/config: the domain map *)

(** [type DomainMap struct { entries map[string]string }] *)
Record DomainMap := { entries : gmap string string }.

(** The loop of [LookupIP], which runs while [h] is not empty.  Every
    iteration that does not return replaces [h] by a strictly shorter
    string, so [len(hostname) + 1] iterations are enough ([fuel]; see
    [LookupIP_loop_fuel]). *)
Fixpoint LookupIP_loop (fuel : nat) (dm : DomainMap) (h : string) : string * bool :=
  match fuel with
  | O => (EmptyString, false)
  | S fuel' =>
      if bool_decide (h = EmptyString) then (EmptyString, false)
      else
        (* Check exact match first *)
        match entries dm !! h with
        | Some ip => (ip, true)
        | None =>
            let idx := Index h "." in
            if (idx <? 0)%Z then (EmptyString, false) (* break *)
            else
              (* Check wildcard match at this level *)
              match entries dm !! ("*." +:+ slice_from h (idx + 1)) with
              | Some ip => (ip, true)
              | None => LookupIP_loop fuel' dm (slice_from h (idx + 1))
              end
        end
  end.

(** [func (dm *DomainMap) LookupIP(hostname string) (string, bool)] *)
Definition LookupIP (dm : DomainMap) (hostname : string) : string * bool :=
  let hostname := TrimSuffix hostname "." in
  LookupIP_loop (S (String.length hostname)) dm hostname.

(** *** The priority walk of the design document, as a list of keys

    The walk visits the name and then each name obtained by dropping
    leading labels, as long as something is left; at a visited name it
    consults the exact key and then the wildcard key of the parent.  The
    result of a lookup is the entry of the first consulted key that the
    table has. *)

Fixpoint first_match (tbl : gmap string string) (keys : list string) : string * bool :=
  match keys with
  | [] => (EmptyString, false)
  | k :: ks =>
      match tbl !! k with
      | Some ip => (ip, true)
      | None => first_match tbl ks
      end
  end.

(** The keys as the document words them: at every visited name [h] the
    exact key [h], then ["*." + parent(h)], [parent(h)] being [h] with its
    first label removed (nothing, for a name of one label). *)
Fixpoint spec_keys (ls : list string) : list string :=
  match ls with
  | [] => []
  | l :: rest =>
      let h := Join (l :: rest) "." in
      if bool_decide (h = EmptyString) then []
      else h :: ("*." +:+ Join rest ".") :: spec_keys rest
  end.

Definition reference_walk (dm : DomainMap) (hostname : string) : string * bool :=
  first_match (entries dm) (spec_keys (labels (TrimSuffix hostname "."))).

(** The keys the code consults: the wildcard key is consulted only at a
    name that still has a dot, i.e. that has a parent. *)
Fixpoint walk_keys (ls : list string) : list string :=
  match ls with
  | [] => []
  | l :: rest =>
      let h := Join (l :: rest) "." in
      if bool_decide (h = EmptyString) then []
      else h :: match rest with
                | [] => []
                | _ :: _ => ["*." +:+ Join rest "."]
                end ++ walk_keys rest
  end.

Definition priority_walk (dm : DomainMap) (hostname : string) : string * bool :=
  first_match (entries dm) (walk_keys (labels (TrimSuffix hostname "."))).

(** ** internal/dns: host name helper *)

(** [func SplitHostname(fqdn string) (hostname, domain string)] *)
Definition SplitHostname (fqdn : string) : string * string :=
  let fqdn := TrimSuffix fqdn "." in
  let parts := SplitN fqdn "." 2 in
  match parts with
  | p0 :: p1 :: _ => (p0, p1)
  | _ => (fqdn, EmptyString) (* len(parts) < 2 *)
  end.

(** ** Go errors

    An [error] is either made by [fmt.Errorf] (with its format and
    arguments; the verb [%w] wraps a cause) or is a status error of the
    Kubernetes API machinery. *)

Inductive arg :=
| ArgStr (s : string)
| ArgInt (n : Z).

Inductive StatusReason :=
| StatusReasonNotFound
| StatusReasonConflict
| StatusReasonUnknown.

Inductive error :=
| Errorf (format : string) (args : list arg)
| Wrapf (format : string) (args : list arg) (cause : error)
| StatusError (reason : StatusReason) (message : string).

(** [errors.Unwrap] *)
Definition Unwrap (e : error) : option error :=
  match e with
  | Wrapf _ _ cause => Some cause
  | _ => None
  end.

(** [apierrors.ReasonForError]: the reason of the first status error in
    the chain of causes. *)
Fixpoint ReasonForError (e : error) : StatusReason :=
  match e with
  | StatusError reason _ => reason
  | Wrapf _ _ cause => ReasonForError cause
  | Errorf _ _ => StatusReasonUnknown
  end.

Definition IsNotFound (e : error) : bool :=
  match ReasonForError e with StatusReasonNotFound => true | _ => false end.

Definition IsConflict (e : error) : bool :=
  match ReasonForError e with StatusReasonConflict => true | _ => false end.

(** [client.IgnoreNotFound] *)
Definition IgnoreNotFound (e : error) : option error :=
  if IsNotFound e then None else Some e.

(** ** internal/dns: records and the provider interface *)

Module dns.

(** [type Record struct]; [Meta] is a Go map and may be nil. *)
Record Record_ := {
  Hostname : string;
  Type_ : string;
  Value : string;
  TTL : Z;
  Meta : option (gmap string string);
}.

(** [type Provider interface].  A provider acts on a DNS backend whose
    state [D] is threaded through the calls; [(bool, error)] is a sum. *)
Class Provider (D : Type) := {
  Exists : string -> string -> D -> (error + bool) * D;
  Create : Record_ -> D -> option error * D;
  Update : Record_ -> D -> option error * D;
  Delete : string -> string -> D -> option error * D;
  Upsert : Record_ -> D -> option error * D;
}.

End dns.

(** ** internal/dns/opnsense: the OPNsense Unbound provider *)

Module opnsense.

(** [type Provider struct]; the HTTP client and the logger are not data. *)
Record Provider := {
  baseURL : string;
  apiKey : string;
  apiSecret : string;
  defaultTTL : Z;
}.

(** [type hostRow struct] *)
Record hostRow := {
  UUID : string;
  Enabled : string;
  Hostname : string;
  Domain : string;
  RR : string;
  Server : string;
}.

(** The values passed as [body interface{}] to [doRequest]: [nil] is
    [None], [struct{}{}] and the map built by [buildHostBody]. *)
Inductive payload :=
| EmptyStruct
| HostOverride (host : gmap string string).

Record Request := {
  Method : string;
  URL : string;
  BasicAuth : string * string;
  ContentType : option string;
  Payload : option payload;
}.

Record Response (Body : Type) := {
  StatusCode : Z;
  Body_ : Body;
}.
Arguments StatusCode {Body} _.
Arguments Body_ {Body} _.

(** What the provider needs from [net/http] and [encoding/json], over a
    backend with state [B] whose response bodies have type [Body]:
    [NewRequest] is the validation done by [http.NewRequestWithContext],
    [Do] is [p.client.Do], the three decoders are
    [json.NewDecoder(resp.Body).Decode] at the three struct types the
    provider decodes into, [ReadAll] is [io.ReadAll] as a string. *)
Class Backend (B Body : Type) := {
  NewRequest : string -> string -> option error;
  Do : Request -> B -> (error + Response Body) * B;
  decodeSearch : Body -> error + list hostRow;
  decodeResult : Body -> error + string * string;
  decodeStatus : Body -> error + string;
  ReadAll : Body -> string;
}.

(** [strings.TrimLeft(s, "/")], [strings.TrimRight(s, "/")] *)
Fixpoint TrimLeft_slash (s : string) : string :=
  match s with
  | String c s' => if bool_decide (c = "/"%char) then TrimLeft_slash s' else s
  | EmptyString => EmptyString
  end.

Fixpoint TrimRight_slash (s : string) : string :=
  match s with
  | EmptyString => EmptyString
  | String c s' =>
      match TrimRight_slash s' with
      | EmptyString => if bool_decide (c = "/"%char) then EmptyString else String c EmptyString
      | t => String c t
      end
  end.

(** [strings.EqualFold] of Go's standard library.

    Its first loop runs over the bytes the two strings have in common,
    as long as both bytes are ASCII ([sr|tr < utf8.RuneSelf]): equal
    bytes pass, and so does an upper-case letter against its lower-case
    form; when one string is used up the answer is whether both are.  At
    the first position where one of the two bytes is not ASCII the
    function jumps to its label [hasUnicode] and compares what is left
    of the two strings rune by rune, with [utf8.DecodeRuneInString] and
    the tables of [unicode.SimpleFold].  That second part is [foldRunes]
    below, taken from the library as it is; everything proved here
    holds for whatever it answers. *)
Class Unicode := { foldRunes : string -> string -> bool }.

(** [utf8.RuneSelf] *)
Definition RuneSelf : N := 128.

(** The body of the first loop on two ASCII bytes: [true] is
    [continue], [false] is [return false]. *)
Definition foldEq (sr tr : N) : bool :=
  if (tr =? sr)%N then true
  else
    let '(sr, tr) := if (tr <? sr)%N then (tr, sr) else (sr, tr) in
    (65 <=? sr)%N && (sr <=? 90)%N && (tr =? sr + 97 - 65)%N.

Fixpoint EqualFold `{!Unicode} (s t : string) : bool :=
  match s, t with
  | String sc s', String tc t' =>
      let sr := N_of_ascii sc in
      let tr := N_of_ascii tc in
      if (RuneSelf <=? N.lor sr tr)%N then foldRunes s t
      else if foldEq sr tr then EqualFold s' t'
      else false
  | EmptyString, EmptyString => true
  | _, _ => false
  end.

(** The strings of ASCII bytes and their lower-case form, to say what
    [EqualFold] decides on such strings. *)
Definition ascii_byte (c : ascii) : bool := (N_of_ascii c <? RuneSelf)%N.

Fixpoint ascii_only (s : string) : bool :=
  match s with
  | EmptyString => true
  | String c s' => ascii_byte c && ascii_only s'
  end.

Definition fold_byte (c : ascii) : ascii :=
  let n := nat_of_ascii c in
  if (65 <=? n)%nat && (n <=? 90)%nat then ascii_of_nat (n + 32) else c.

Fixpoint fold_case (s : string) : string :=
  match s with
  | EmptyString => EmptyString
  | String c s' => String (fold_byte c) (fold_case s')
  end.

Definition StatusOK : Z := 200.

Section Methods.

Context {B Body : Type} `{!Backend B Body} `{!Unicode}.
Variable p : Provider.

(** [doRequest]: [json.Marshal] cannot fail on the bodies that are
    passed, so the ["marshal request body"] error does not arise. *)
Definition doRequest (method path : string) (body : option payload) (b : B)
  : (error + Response Body) * B :=
  let url := TrimRight_slash (baseURL p) +:+ "/" +:+ TrimLeft_slash path in
  match NewRequest method url with
  | Some err => (inl (Wrapf "opnsense: build request: %w" [] err), b)
  | None =>
      let req := {| Method := method; URL := url;
                    BasicAuth := (apiKey p, apiSecret p);
                    ContentType := match body with
                                   | Some _ => Some "application/json"
                                   | None => None
                                   end;
                    Payload := body |} in
      match Do req b with
      | (inl err, b') =>
          (inl (Wrapf "opnsense: %s %s: %w" [ArgStr method; ArgStr path] err), b')
      | (inr resp, b') => (inr resp, b')
      end
  end.

(** [reconfigure] tells OPNsense to apply DNS changes. *)
Definition reconfigure (b : B) : option error * B :=
  match doRequest "POST" "unbound/service/reconfigure" (Some EmptyStruct) b with
  | (inl err, b') => (Some (Wrapf "opnsense: reconfigure: %w" [] err), b')
  | (inr resp, b') =>
      if negb (StatusCode resp =? StatusOK)%Z then
        (Some (Errorf "opnsense: reconfigure returned status %d" [ArgInt (StatusCode resp)]), b')
      else
        match decodeStatus (Body_ resp) with
        | inl err => (Some (Wrapf "opnsense: decode reconfigure response: %w" [] err), b')
        | inr _ => (None, b')
        end
  end.

(** The loop of [findOverride] over the rows of the search response. *)
Fixpoint firstMatch (rows : list hostRow) (host domain recordType : string) : string :=
  match rows with
  | [] => EmptyString
  | row :: rows' =>
      if EqualFold (Hostname row) host && EqualFold (Domain row) domain
         && EqualFold (RR row) recordType
      then UUID row
      else firstMatch rows' host domain recordType
  end.

(** The condition of that loop: the row is the override of [host],
    [domain] and [recordType]. *)
Definition rowMatches (row : hostRow) (host domain recordType : string) : bool :=
  EqualFold (Hostname row) host && EqualFold (Domain row) domain
  && EqualFold (RR row) recordType.

(** [findOverride] returns the UUID of the override for [fqdn] and
    [recordType], or the empty string. *)
Definition findOverride (fqdn recordType : string) (b : B) : (error + string) * B :=
  match doRequest "GET" "unbound/settings/searchHostOverride" None b with
  | (inl err, b') => (inl err, b')
  | (inr resp, b') =>
      if negb (StatusCode resp =? StatusOK)%Z then
        (inl (Errorf "opnsense: searchHostOverride returned status %d"
                [ArgInt (StatusCode resp)]), b')
      else
        match decodeSearch (Body_ resp) with
        | inl err => (inl (Wrapf "opnsense: decode search response: %w" [] err), b')
        | inr rows =>
            let '(host, domain) := SplitHostname fqdn in
            (inr (firstMatch rows host domain recordType), b')
        end
  end.

(** [buildHostBody] creates the body of the add/set host override calls;
    the outer map has the single key ["host"]. *)
Definition buildHostBody (record : dns.Record_) : gmap string string :=
  let '(host, domain) := SplitHostname (dns.Hostname record) in
  let description :=
    match dns.Meta record with
    | Some meta => default EmptyString (meta !! "description")
    | None => EmptyString
    end in
  {[ "enabled" := "1"; "hostname" := host; "domain" := domain;
     "rr" := dns.Type_ record; "server" := dns.Value record;
     "description" := description; "mxprio" := EmptyString; "mx" := EmptyString ]}.

Definition Exists (hostname recordType : string) (b : B) : (error + bool) * B :=
  match findOverride hostname recordType b with
  | (inl err, b') => (inl err, b')
  | (inr uuid, b') => (inr (negb (bool_decide (uuid = EmptyString))), b')
  end.

Definition Create (record : dns.Record_) (b : B) : option error * B :=
  let body := HostOverride (buildHostBody record) in
  match doRequest "POST" "unbound/settings/addHostOverride" (Some body) b with
  | (inl err, b') => (Some err, b')
  | (inr resp, b') =>
      if negb (StatusCode resp =? StatusOK)%Z then
        (Some (Errorf "opnsense: addHostOverride returned status %d: %s"
                 [ArgInt (StatusCode resp); ArgStr (ReadAll (Body_ resp))]), b')
      else
        match decodeResult (Body_ resp) with
        | inl err => (Some (Wrapf "opnsense: decode addHostOverride response: %w" [] err), b')
        | inr (result, _) =>
            if negb (bool_decide (result = "saved")) then
              (Some (Errorf "opnsense: addHostOverride unexpected result: %s" [ArgStr result]), b')
            else reconfigure b'
        end
  end.

Definition Update (record : dns.Record_) (b : B) : option error * B :=
  match findOverride (dns.Hostname record) (dns.Type_ record) b with
  | (inl err, b') => (Some err, b')
  | (inr uuid, b') =>
      if bool_decide (uuid = EmptyString) then
        (Some (Errorf "opnsense: no existing override found for %s/%s"
                 [ArgStr (dns.Hostname record); ArgStr (dns.Type_ record)]), b')
      else
        let body := HostOverride (buildHostBody record) in
        match doRequest "POST" ("unbound/settings/setHostOverride/" +:+ uuid) (Some body) b' with
        | (inl err, b'') => (Some err, b'')
        | (inr resp, b'') =>
            if negb (StatusCode resp =? StatusOK)%Z then
              (Some (Errorf "opnsense: setHostOverride returned status %d: %s"
                       [ArgInt (StatusCode resp); ArgStr (ReadAll (Body_ resp))]), b'')
            else
              match decodeResult (Body_ resp) with
              | inl err =>
                  (Some (Wrapf "opnsense: decode setHostOverride response: %w" [] err), b'')
              | inr (result, _) =>
                  if negb (bool_decide (result = "saved")) then
                    (Some (Errorf "opnsense: setHostOverride unexpected result: %s"
                             [ArgStr result]), b'')
                  else reconfigure b''
              end
        end
  end.

Definition Delete (hostname recordType : string) (b : B) : option error * B :=
  match findOverride hostname recordType b with
  | (inl err, b') => (Some err, b')
  | (inr uuid, b') =>
      if bool_decide (uuid = EmptyString) then
        (Some (Errorf "opnsense: no existing override found for %s/%s"
                 [ArgStr hostname; ArgStr recordType]), b')
      else
        match doRequest "POST" ("unbound/settings/delHostOverride/" +:+ uuid)
                (Some EmptyStruct) b' with
        | (inl err, b'') => (Some err, b'')
        | (inr resp, b'') =>
            if negb (StatusCode resp =? StatusOK)%Z then
              (Some (Errorf "opnsense: delHostOverride returned status %d: %s"
                       [ArgInt (StatusCode resp); ArgStr (ReadAll (Body_ resp))]), b'')
            else
              match decodeResult (Body_ resp) with
              | inl err =>
                  (Some (Wrapf "opnsense: decode delHostOverride response: %w" [] err), b'')
              | inr (result, _) =>
                  if negb (bool_decide (result = "deleted")) then
                    (Some (Errorf "opnsense: delHostOverride unexpected result: %s"
                             [ArgStr result]), b'')
                  else reconfigure b''
              end
        end
  end.

(** [Upsert] creates or updates a DNS record depending on whether it
    already exists. *)
Definition Upsert (record : dns.Record_) (b : B) : option error * B :=
  match Exists (dns.Hostname record) (dns.Type_ record) b with
  | (inl err, b') => (Some (Wrapf "opnsense: upsert check: %w" [] err), b')
  | (inr exists_, b') =>
      if exists_ then Update record b' else Create record b'
  end.

End Methods.

(** [*opnsense.Provider] implements [dns.Provider]. *)
Definition provider `{!Backend B Body} `{!Unicode} (p : Provider) : dns.Provider B := {|
  dns.Exists := Exists p;
  dns.Create := Create p;
  dns.Update := Update p;
  dns.Delete := Delete p;
  dns.Upsert := Upsert p;
|}.

(** The composite operation as the design document words it: call
    [Exists]; on an error fail with it (the provider adds context with
    [wrap]); if it reports true the result is that of [Update], else that
    of [Create]. *)
Definition upsert_composite {D} `{!dns.Provider D} (wrap : error -> error)
    (record : dns.Record_) (d : D) : option error * D :=
  match dns.Exists (dns.Hostname record) (dns.Type_ record) d with
  | (inl err, d') => (Some (wrap err), d')
  | (inr true, d') => dns.Update record d'
  | (inr false, d') => dns.Create record d'
  end.

End opnsense.

(** ** internal/controller: the HTTPRoute reconciler *)

Module controller.

Definition finalizerName : string := "dns.yk/cleanup".
Definition managedHostnamesAnnotation : string := "dns.yk/managed-hostnames".

(** [types.NamespacedName] *)
Record NamespacedName := {
  Namespace : string;
  Name : string;
}.

(** The part of [gatewayv1.HTTPRoute] that [Reconcile] reads or writes.
    [DeletionTimestamp] is a pointer to a time (an offset from Go's zero
    time here); [Annotations] is a Go map and may be nil. *)
Record HTTPRoute := {
  Key : NamespacedName;
  DeletionTimestamp : option Z;
  Finalizers : list string;
  Annotations : option (gmap string string);
  Hostnames : list string;
}.

(** [IsZero] of [metav1.Time]: a nil pointer or the zero time. *)
Definition IsZero (t : option Z) : bool :=
  match t with
  | None => true
  | Some t => (t =? 0)%Z
  end.

(** [controllerutil.ContainsFinalizer], [AddFinalizer], [RemoveFinalizer] *)
Definition ContainsFinalizer (o : HTTPRoute) (finalizer : string) : bool :=
  bool_decide (finalizer ∈ Finalizers o).

Definition SetFinalizers (o : HTTPRoute) (f : list string) : HTTPRoute :=
  {| Key := Key o; DeletionTimestamp := DeletionTimestamp o; Finalizers := f;
     Annotations := Annotations o; Hostnames := Hostnames o |}.

Definition AddFinalizer (o : HTTPRoute) (finalizer : string) : HTTPRoute :=
  if ContainsFinalizer o finalizer then o
  else SetFinalizers o (Finalizers o ++ [finalizer]).

Definition RemoveFinalizer (o : HTTPRoute) (finalizer : string) : HTTPRoute :=
  SetFinalizers o (filter (fun f => f <> finalizer) (Finalizers o)).

(** [route.Annotations[key] = value], after [make] when the map is nil. *)
Definition SetAnnotation (o : HTTPRoute) (key value : string) : HTTPRoute :=
  {| Key := Key o; DeletionTimestamp := DeletionTimestamp o;
     Finalizers := Finalizers o;
     Annotations := Some (<[key := value]> (default ∅ (Annotations o)));
     Hostnames := Hostnames o |}.

(** Modelled from the spec: the helper [Contains(list, x)] of package
    [controller] is called by [Reconcile] but its file is not among the
    sources.  The design document describes the hostnames it selects as
    those "present in previousSet and absent from currentSet", so
    [Contains(currentHostnames, oldHost)] is membership of [oldHost] in
    [currentHostnames]. *)
Definition Contains (list : list string) (x : string) : bool :=
  bool_decide (x ∈ list).

(** A Go slice of strings is nil or has elements; [reflect.DeepEqual]
    tells a nil slice from an empty one. *)
Definition elements (s : option (list string)) : list string :=
  match s with
  | Some l => l
  | None => []
  end.

Definition DeepEqual (a b : option (list string)) : bool :=
  match a, b with
  | None, None => true
  | Some x, Some y => bool_decide (x = y)
  | _, _ => false
  end.

(** [encoding/json] at type [[]string]: [Marshal] of a non-nil slice, and
    the value that [json.Unmarshal([]byte(val), &s)] leaves in a nil
    slice [s], its error being discarded. *)
Class HostnamesJSON := {
  Marshal : list string -> string;
  Unmarshal : string -> option (list string);
}.

(** The API server as the reconciler uses it, with state [K]:
    [r.APIReader.Get] and [r.Update] (the [Update] of the embedded
    [client.Client]).  [Get] gives the object read. *)
Class Cluster (K : Type) := {
  Get : NamespacedName -> K -> (error + HTTPRoute) * K;
  Update : HTTPRoute -> K -> option error * K;
}.

(** [type HTTPRouteReconciler struct]: the client, the reader and the
    provider are the instances in scope, the logger is left out. *)
Record HTTPRouteReconciler := {
  DomainMap_ : DomainMap;
  Upsert : bool;
}.

(** What a pass does to the outside: the calls it makes, in order, each
    with its outcome. *)
Inductive event :=
| EvGet (key : NamespacedName) (res : error + HTTPRoute)
| EvUpdate (obj : HTTPRoute) (res : option error)
| EvExists (hostname recordType : string) (res : error + bool)
| EvCreate (record : dns.Record_) (res : option error)
| EvUpdateRecord (record : dns.Record_) (res : option error)
| EvDelete (hostname recordType : string) (res : option error)
| EvUpsert (record : dns.Record_) (res : option error).

Record World (D K : Type) := {
  dnsWorld : D;
  cluster : K;
  trace : list event;
}.
Arguments dnsWorld {D K} _.
Arguments cluster {D K} _.
Arguments trace {D K} _.

(** [retry.DefaultRetry.Steps] *)
Definition DefaultRetry : nat := 5.

Section Reconcile.

Context {D K : Type} `{!dns.Provider D} `{!Cluster K} `{!HostnamesJSON}.

(** Computations of a pass: they read and change the world. *)
Definition M (A : Type) : Type := World D K -> A * World D K.

Definition ret {A} (a : A) : M A := fun w => (a, w).

Definition bind {A B} (c : M A) (k : A -> M B) : M B :=
  fun w => let '(a, w') := c w in k a w'.

Notation "x <- c ;; k" := (bind c (fun x => k))
  (at level 100, c at next level, right associativity).

Definition onCluster {A} (call : K -> A * K) (ev : A -> event) : M A :=
  fun w =>
    let '(a, k') := call (cluster w) in
    (a, {| dnsWorld := dnsWorld w; cluster := k'; trace := trace w ++ [ev a] |}).

Definition onProvider {A} (call : D -> A * D) (ev : A -> event) : M A :=
  fun w =>
    let '(a, d') := call (dnsWorld w) in
    (a, {| dnsWorld := d'; cluster := cluster w; trace := trace w ++ [ev a] |}).

Definition apiGet (key : NamespacedName) : M (error + HTTPRoute) :=
  onCluster (Get key) (EvGet key).
Definition apiUpdate (obj : HTTPRoute) : M (option error) :=
  onCluster (Update obj) (EvUpdate obj).
Definition dnsExists (hostname recordType : string) : M (error + bool) :=
  onProvider (dns.Exists hostname recordType) (EvExists hostname recordType).
Definition dnsCreate (record : dns.Record_) : M (option error) :=
  onProvider (dns.Create record) (EvCreate record).
Definition dnsDelete (hostname recordType : string) : M (option error) :=
  onProvider (dns.Delete hostname recordType) (EvDelete hostname recordType).
Definition dnsUpsert (record : dns.Record_) : M (option error) :=
  onProvider (dns.Upsert record) (EvUpsert record).

(** A [for ... range] loop whose body may [return] an error ([Some]) or
    go on to the next element ([None], also for [continue]). *)
Fixpoint forEach {A} (l : list A) (body : A -> M (option error)) : M (option error) :=
  match l with
  | [] => ret None
  | x :: l' =>
      err <- body x ;;
      match err with
      | Some err => ret (Some err)
      | None => forEach l' body
      end
  end.

(** [retry.RetryOnConflict(backoff, fn)] with [backoff.Steps = steps]:
    [fn] is run again after a conflict, at most [steps] times in all; the
    last conflict is the result when the steps are used up.  (With no
    step at all [wait.ExponentialBackoff] times out and there is no last
    error.) *)
Fixpoint RetryOnConflict (steps : nat) (fn : M (option error)) : M (option error) :=
  match steps with
  | O => ret None
  | S steps' =>
      err <- fn ;;
      match err with
      | None => ret None
      | Some err =>
          if IsConflict err then
            match steps' with
            | O => ret (Some err)
            | S _ => RetryOnConflict steps' fn
            end
          else ret (Some err)
      end
  end.

(** The three closures passed to [retry.RetryOnConflict]. *)
Definition removeFinalizer (req : NamespacedName) : M (option error) :=
  res <- apiGet req ;;
  match res with
  | inl err => ret (Some err)
  | inr route => apiUpdate (RemoveFinalizer route finalizerName)
  end.

Definition addFinalizer (req : NamespacedName) : M (option error) :=
  res <- apiGet req ;;
  match res with
  | inl err => ret (Some err)
  | inr route => apiUpdate (AddFinalizer route finalizerName)
  end.

Definition writeManagedHostnames (req : NamespacedName) (currentHostnames : list string)
  : M (option error) :=
  res <- apiGet req ;;
  match res with
  | inl err => ret (Some err)
  | inr route =>
      apiUpdate (SetAnnotation route managedHostnamesAnnotation (Marshal currentHostnames))
  end.

(** The common form of the three closures: read the object again, change
    it, write it ([removeFinalizer_form] and its two siblings). *)
Definition getThenUpdate (req : NamespacedName) (change : HTTPRoute -> HTTPRoute)
  : M (option error) :=
  res <- apiGet req ;;
  match res with
  | inl err => ret (Some err)
  | inr route => apiUpdate (change route)
  end.

(** The loop [for _, hostname := range route.Spec.Hostnames] of the
    deletion branch. *)
Definition deleteRecords (hostnames : list string) : M (option error) :=
  forEach hostnames (fun hostname =>
    err <- dnsDelete hostname "A" ;;
    match err with
    | Some err =>
        ret (Some (Wrapf "deleting DNS record for %s: %w" [ArgStr hostname] err))
    | None => ret None
    end).

(** "Delete hostnames that were removed from the spec" *)
Definition deleteRemoved (managedHostnames : option (list string))
    (currentHostnames : list string) : M (option error) :=
  forEach (elements managedHostnames) (fun oldHost =>
    if negb (Contains currentHostnames oldHost) then
      err <- dnsDelete oldHost "A" ;;
      match err with
      | Some err =>
          ret (Some (Wrapf "deleting removed DNS record for %s: %w" [ArgStr oldHost] err))
      | None => ret None
      end
    else ret None).

(** "Update and Create" *)
Definition syncRecords (r : HTTPRouteReconciler) (hostnames : list string)
  : M (option error) :=
  forEach hostnames (fun hostname =>
    let '(ip, ok) := LookupIP (DomainMap_ r) hostname in
    if negb ok then ret None (* continue *)
    else
      let record :=
        {| dns.Hostname := hostname; dns.Type_ := "A"; dns.Value := ip;
           dns.TTL := 0;
           dns.Meta := Some {[ "description" := "managed by yk-dns-manager" ]} |} in
      if Upsert r then
        err <- dnsUpsert record ;;
        match err with
        | Some err =>
            ret (Some (Wrapf "upserting DNS record for %s: %w" [ArgStr hostname] err))
        | None => ret None (* continue *)
        end
      else
        (* Non-upsert path: only create if missing *)
        res <- dnsExists hostname "A" ;;
        match res with
        | inl err =>
            ret (Some (Wrapf "checking DNS record for %s: %w" [ArgStr hostname] err))
        | inr true => ret None (* continue *)
        | inr false =>
            err <- dnsCreate record ;;
            match err with
            | Some err =>
                ret (Some (Wrapf "creating DNS record for %s: %w" [ArgStr hostname] err))
            | None => ret None
            end
        end).

(** [managedHostnames] as read from the annotation. *)
Definition readManagedHostnames (route : HTTPRoute) : option (list string) :=
  match default ∅ (Annotations route) !! managedHostnamesAnnotation with
  | Some val => Unmarshal val
  | None => None
  end.

(** [func (r *HTTPRouteReconciler) Reconcile(ctx, req) (ctrl.Result, error)];
    the result is always the empty [ctrl.Result], so only the error is
    returned here. *)
Definition Reconcile (r : HTTPRouteReconciler) (req : NamespacedName) : M (option error) :=
  res <- apiGet req ;;
  match res with
  | inl err => ret (IgnoreNotFound err)
  | inr route =>
      (* Handle deletion *)
      if negb (IsZero (DeletionTimestamp route)) then
        if ContainsFinalizer route finalizerName then
          err <- deleteRecords (Hostnames route) ;;
          match err with
          | Some err => ret (Some err)
          | None =>
              err <- RetryOnConflict DefaultRetry (removeFinalizer req) ;;
              match err with
              | Some err => ret (Some (Wrapf "failed to remove finalizer: %w" [] err))
              | None => ret None
              end
          end
        else ret None
      else if negb (ContainsFinalizer route finalizerName) then
        err <- RetryOnConflict DefaultRetry (addFinalizer req) ;;
        match err with
        | Some err => ret (Some (Wrapf "failed to add finalizer: %w" [] err))
        | None => ret None
        end
      else
        let managedHostnames := readManagedHostnames route in
        let currentHostnames := Hostnames route in
        err <- deleteRemoved managedHostnames currentHostnames ;;
        match err with
        | Some err => ret (Some err)
        | None =>
            err <- syncRecords r (Hostnames route) ;;
            match err with
            | Some err => ret (Some err)
            | None =>
                (* Update annotation with the current list of managed hostnames *)
                if negb (DeepEqual managedHostnames (Some currentHostnames)) then
                  err <- RetryOnConflict DefaultRetry
                           (writeManagedHostnames req currentHostnames) ;;
                  match err with
                  | Some err =>
                      ret (Some (Wrapf "failed to update managed-hostnames annotation: %w"
                                   [] err))
                  | None => ret None
                  end
                else ret None
            end
        end
  end.

End Reconcile.

End controller.

(** ** Reading a trace *)

Module Trace.

Import controller.

(** A successful [Delete(h, "A")]. *)
Definition delete_ok (h : string) : event := EvDelete h "A" None.

Definition is_delete (ev : event) : bool :=
  match ev with EvDelete _ _ _ => true | _ => false end.

(** [Create], [Update] or [Upsert] of the provider. *)
Definition is_mutation (ev : event) : bool :=
  match ev with
  | EvCreate _ _ | EvUpdateRecord _ _ | EvUpsert _ _ => true
  | _ => false
  end.

(** A write to the resource. *)
Definition is_write (ev : event) : bool :=
  match ev with EvUpdate _ _ => true | _ => false end.


(** A provider call that returned an error. *)
Definition provider_failed (ev : event) : bool :=
  match ev with
  | EvExists _ _ (inl _) | EvCreate _ (Some _) | EvUpdateRecord _ (Some _)
  | EvDelete _ _ (Some _) | EvUpsert _ (Some _) => true
  | _ => false
  end.

(** A call of the second loop ([Exists], [Create], [Upsert]) that
    returned without error. *)
Definition sync_ok (ev : event) : bool :=
  match ev with
  | EvExists _ _ (inr _) | EvCreate _ None | EvUpsert _ None => true
  | _ => false
  end.

(** A call of the second loop that returned an error. *)
Definition sync_failed (ev : event) : bool :=
  match ev with
  | EvExists _ _ (inl _) | EvCreate _ (Some _) | EvUpsert _ (Some _) => true
  | _ => false
  end.

(** An event of a retried write: a read, or the write of an object made
    by [change]. *)
Definition written_by (change : HTTPRoute -> HTTPRoute) (ev : event) : Prop :=
  match ev with
  | EvGet _ _ => True
  | EvUpdate obj _ => exists route, obj = change route
  | _ => False
  end.

(** The call [Delete(h, "A")], as hostname and record type. *)
Definition call_A (h : string) : string * string := (h, "A").

(** The [Delete] calls made, in call order: hostname and record type. *)
Fixpoint delete_calls (tr : list event) : list (string * string) :=
  match tr with
  | [] => []
  | EvDelete h t _ :: tr' => (h, t) :: delete_calls tr'
  | _ :: tr' => delete_calls tr'
  end.


(** The hostnames of the previous set that the current list lacks, in the
    order (and number) in which the previous set has them. *)
Definition removed (previous : option (list string)) (current : list string)
  : list string :=
  filter (fun h => h ∉ current) (elements previous).

(** The events of a pass after its initial read: what [w'] has recorded
    beyond [w1]. *)
Definition pass_events {D K} (w1 w' : World D K) : list event :=
  drop (length (trace w1)) (trace w').

(** A resource write was attempted. *)
Definition wrote (evs : list event) : bool := existsb is_write evs.

(** The same hostnames, order and repetitions aside. *)
Definition same_set (a b : list string) : Prop := forall h, h ∈ a <-> h ∈ b.

(** Occurrences of [h] in [l]. *)
Definition occurrences {A} `{EqDecision A} (h : A) (l : list A) : nat :=
  length (filter (fun x => x = h) l).

End Trace.
(** * Test doubles and data for the examples

    [mock] is the recording provider of the controller tests and [fake]
    the in-memory OPNsense API of the integration tests; [memory] is a
    one-object API server and a stand-in encoding of the hostnames
    annotation, which the repository takes from libraries. *)

Module mock.

(** [type mockDNSProvider struct] *)
Record mockDNSProvider := {
  existingHosts : option (gmap string bool);
  createdRecords : list dns.Record_;
  upsertedRecords : list dns.Record_;
  deletedHosts : list string;
}.

Definition Exists (hostname recordType : string) (m : mockDNSProvider)
  : (error + bool) * mockDNSProvider :=
  match existingHosts m with
  | Some hosts => (inr (default false (hosts !! hostname)), m)
  | None => (inr false, m)
  end.

Definition Create (record : dns.Record_) (m : mockDNSProvider)
  : option error * mockDNSProvider :=
  (None, {| existingHosts := existingHosts m;
            createdRecords := createdRecords m ++ [record];
            upsertedRecords := upsertedRecords m;
            deletedHosts := deletedHosts m |}).

Definition Update (record : dns.Record_) (m : mockDNSProvider)
  : option error * mockDNSProvider := (None, m).

Definition Delete (hostname recordType : string) (m : mockDNSProvider)
  : option error * mockDNSProvider :=
  (None, {| existingHosts := existingHosts m;
            createdRecords := createdRecords m;
            upsertedRecords := upsertedRecords m;
            deletedHosts := deletedHosts m ++ [hostname] |}).

Definition Upsert (record : dns.Record_) (m : mockDNSProvider)
  : option error * mockDNSProvider :=
  (None, {| existingHosts := existingHosts m;
            createdRecords := createdRecords m;
            upsertedRecords := upsertedRecords m ++ [record];
            deletedHosts := deletedHosts m |}).

#[global] Instance provider : dns.Provider mockDNSProvider := {|
  dns.Exists := Exists;
  dns.Create := Create;
  dns.Update := Update;
  dns.Delete := Delete;
  dns.Upsert := Upsert;
|}.

(** [&mockDNSProvider{}] *)
Definition new : mockDNSProvider :=
  {| existingHosts := None; createdRecords := []; upsertedRecords := [];
     deletedHosts := [] |}.

End mock.

Module fake.

(** [type hostOverride struct] *)
Record hostOverride := {
  Enabled : string;
  Hostname : string;
  Domain : string;
  RR : string;
  Server : string;
  Description : string;
  MXPrio : string;
  MX : string;
}.

(** [type fakeOPNsense struct] *)
Record fakeOPNsense := {
  store : gmap string hostOverride;
  nextID : Z;
  calls : list string;
}.

(** [newFakeOPNsense] *)
Definition newFakeOPNsense : fakeOPNsense :=
  {| store := ∅; nextID := 0; calls := [] |}.

(** The bodies the handlers write: the JSON objects of [writeJSON], given
    by their fields, and the plain text of [http.Error]. *)
Inductive body :=
| Rows (rows : list opnsense.hostRow) (total : Z)
| Result (result uuid : string)
| Status (status : string)
| Text (text : string).

Definition serverURL : string := "http://127.0.0.1:8080".

Definition StatusBadRequest : Z := 400.
Definition StatusNotFound : Z := 404.

Definition respond (code : Z) (b : body) : opnsense.Response body :=
  {| opnsense.StatusCode := code; opnsense.Body_ := b |}.

(** [readJSON] into [struct { Host hostOverride }]: an absent body is not
    JSON, absent fields stay empty. *)
Definition readHost (p : option opnsense.payload) : option hostOverride :=
  let field (m : gmap string string) k := default EmptyString (m !! k) in
  match p with
  | None => None
  | Some opnsense.EmptyStruct => Some (Build_hostOverride EmptyString EmptyString EmptyString EmptyString EmptyString EmptyString EmptyString EmptyString)
  | Some (opnsense.HostOverride m) =>
      Some {| Enabled := field m "enabled"; Hostname := field m "hostname";
              Domain := field m "domain"; RR := field m "rr";
              Server := field m "server"; Description := field m "description";
              MXPrio := field m "mxprio"; MX := field m "mx" |}
  end.

Definition toRow (entry : string * hostOverride) : opnsense.hostRow :=
  {| opnsense.UUID := entry.1; opnsense.Enabled := Enabled entry.2;
     opnsense.Hostname := Hostname entry.2; opnsense.Domain := Domain entry.2;
     opnsense.RR := RR entry.2; opnsense.Server := Server entry.2 |}.

Definition TrimPrefix (s prefix : string) : string :=
  if HasPrefix s prefix then slice_from s (len prefix) else s.

Definition notFoundResult : string :=
  "{" +:+ String "034"%char "result" +:+ String "034"%char ":"
  +:+ String "034"%char "not found" +:+ String "034"%char "}".

(** [ServeHTTP]; the rows of a search come in the order of [map_to_list]
    (Go iterates over the map in no fixed order). *)
Definition ServeHTTP (req : opnsense.Request) (f : fakeOPNsense)
  : opnsense.Response body * fakeOPNsense :=
  let path := TrimPrefix (opnsense.URL req) serverURL in
  let f := {| store := store f; nextID := nextID f;
              calls := calls f ++ [opnsense.Method req +:+ " " +:+ path] |} in
  if bool_decide (path = "/api/unbound/settings/searchHostOverride") then
    let rows := toRow <$> map_to_list (store f) in
    (respond 200 (Rows rows (Z.of_nat (length rows))), f)
  else if bool_decide (path = "/api/unbound/settings/addHostOverride") then
    match readHost (opnsense.Payload req) with
    | None => (respond StatusBadRequest (Text "unexpected end of JSON input"), f)
    | Some host =>
        let id := "uuid-" +:+ pretty (nextID f + 1)%Z in
        (respond 200 (Result "saved" id),
         {| store := <[id := host]> (store f); nextID := (nextID f + 1)%Z;
            calls := calls f |})
    end
  else if HasPrefix path "/api/unbound/settings/setHostOverride/" then
    let id := TrimPrefix path "/api/unbound/settings/setHostOverride/" in
    match readHost (opnsense.Payload req) with
    | None => (respond StatusBadRequest (Text "unexpected end of JSON input"), f)
    | Some host =>
        match store f !! id with
        | None => (respond StatusNotFound (Text notFoundResult), f)
        | Some _ =>
            (respond 200 (Result "saved" EmptyString),
             {| store := <[id := host]> (store f); nextID := nextID f; calls := calls f |})
        end
    end
  else if HasPrefix path "/api/unbound/settings/delHostOverride/" then
    let id := TrimPrefix path "/api/unbound/settings/delHostOverride/" in
    match store f !! id with
    | None => (respond StatusNotFound (Text notFoundResult), f)
    | Some _ =>
        (respond 200 (Result "deleted" EmptyString),
         {| store := delete id (store f); nextID := nextID f; calls := calls f |})
    end
  else if bool_decide (path = "/api/unbound/service/reconfigure") then
    (respond 200 (Status "ok"), f)
  else (respond StatusNotFound (Text "404 page not found"), f).

Definition notJSON : error := Errorf "invalid character looking for beginning of value" [].

(** The provider over the fake: requests are always well formed and
    always answered; a JSON object decodes into any of the structs, its
    missing fields staying empty. *)
#[global] Instance backend : opnsense.Backend fakeOPNsense body := {|
  opnsense.NewRequest _ _ := None;
  opnsense.Do req f := let '(resp, f') := ServeHTTP req f in (inr resp, f');
  opnsense.decodeSearch b :=
    match b with
    | Rows rows _ => inr rows
    | Text _ => inl notJSON
    | _ => inr []
    end;
  opnsense.decodeResult b :=
    match b with
    | Result result uuid => inr (result, uuid)
    | Text _ => inl notJSON
    | _ => inr (EmptyString, EmptyString)
    end;
  opnsense.decodeStatus b :=
    match b with
    | Status status => inr status
    | Text _ => inl notJSON
    | _ => inr EmptyString
    end;
  opnsense.ReadAll b :=
    match b with
    | Text text => text
    | _ => "{...}"
    end;
|}.

(** The names and record types of the integration tests are ASCII, so
    the rune-wise part of [strings.EqualFold] is not reached in them;
    to run them, what is left of two strings at a byte that is not ASCII
    is compared byte by byte. *)
#[global] Instance unicode : opnsense.Unicode :=
  {| opnsense.foldRunes s t := bool_decide (s = t) |}.

(** [newProvider(t, srv.URL)] *)
Definition newProvider : opnsense.Provider :=
  {| opnsense.baseURL := serverURL +:+ "/api"; opnsense.apiKey := "test-key";
     opnsense.apiSecret := "test-secret"; opnsense.defaultTTL := 300 |}.

(** The provider of the integration tests, talking to the fake. *)
#[global] Instance provider : dns.Provider fakeOPNsense := opnsense.provider newProvider.

(** A server that holds three overrides for the name
    [sub.app.example.com]: one cut after the second label, one cut after
    the first and written in other letter case, one cut after the first
    for another record type. *)
Definition override (hostname domain rr server : string) : hostOverride :=
  {| Enabled := "1"; Hostname := hostname; Domain := domain; RR := rr;
     Server := server; Description := EmptyString; MXPrio := EmptyString;
     MX := EmptyString |}.

Definition split_store : fakeOPNsense :=
  {| store := {[ "uuid-1" := override "sub.app" "example.com" "A" "10.0.0.1";
                 "uuid-2" := override "SUB" "App.Example.COM" "a" "10.0.0.2";
                 "uuid-3" := override "sub" "app.example.com" "AAAA" "fd00::3" ]};
     nextID := 3; calls := [] |}.

(** The rows that server answers a search with, and the server after
    the search. *)
Definition split_rows : list opnsense.hostRow :=
  toRow <$> map_to_list (store split_store).

Definition split_searched : fakeOPNsense :=
  {| store := store split_store; nextID := 3;
     calls := ["GET /api/unbound/settings/searchHostOverride"] |}.

End fake.

Module memory.

Import controller.

(** An API server holding at most one route; the next [conflicts] updates
    are refused as conflicts, as if another writer had come first. *)
Record apiServer := {
  object : option HTTPRoute;
  conflicts : nat;
}.

Definition notFound : error := StatusError StatusReasonNotFound "not found".
Definition conflict : error :=
  StatusError StatusReasonConflict "the object has been modified".

Definition key_eqb (a b : NamespacedName) : bool :=
  bool_decide (Namespace a = Namespace b) && bool_decide (Name a = Name b).

#[global] Instance api : Cluster apiServer := {|
  Get key s :=
    match object s with
    | Some o => if key_eqb (Key o) key then (inr o, s) else (inl notFound, s)
    | None => (inl notFound, s)
    end;
  Update o s :=
    match object s with
    | Some old =>
        if key_eqb (Key old) (Key o) then
          match conflicts s with
          | O => (None, {| object := Some o; conflicts := O |})
          | S n => (Some conflict, {| object := object s; conflicts := n |})
          end
        else (Some notFound, s)
    | None => (Some notFound, s)
    end;
|}.

(** Comma-separated hostnames stand for the JSON text of the annotation:
    the empty text is the empty list, ["null"] leaves the slice nil. *)
#[global] Instance commas : HostnamesJSON := {|
  Marshal l := Join l ",";
  Unmarshal val :=
    if bool_decide (val = "null") then None
    else if bool_decide (val = EmptyString) then Some []
    else Some (SplitN val "," (-1));
|}.

Definition testKey : NamespacedName := {| Namespace := "default"; Name := "test-route" |}.

(** A route with the finalizer in place. *)
Definition route (deleted : bool) (managed : option string) (hostnames : list string)
  : HTTPRoute :=
  {| Key := testKey;
     DeletionTimestamp := if deleted then Some 1735689600%Z else None;
     Finalizers := [finalizerName];
     Annotations := (fun val => {[ managedHostnamesAnnotation := val ]}) <$> managed;
     Hostnames := hostnames |}.

Definition serving (o : HTTPRoute) : apiServer := {| object := Some o; conflicts := 0 |}.

Definition world {D} (d : D) (o : HTTPRoute) : World D apiServer :=
  {| dnsWorld := d; cluster := serving o; trace := [] |}.

(** [newTestDomainMap] *)
Definition testDomainMap : DomainMap :=
  {| entries := {[ "my-domain1.com" := "10.0.8.100"; "my-domain2.it" := "10.0.9.50" ]} |}.

Definition reconciler (upsert : bool) : HTTPRouteReconciler :=
  {| DomainMap_ := testDomainMap; Upsert := upsert |}.

(** The route of [TestHTTPRouteReconciler_Reconcile], as created. *)
Definition fresh_route : HTTPRoute :=
  {| Key := testKey; DeletionTimestamp := None; Finalizers := [];
     Annotations := None; Hostnames := ["app.my-domain1.com"] |}.

(** The route of [TestHTTPRouteReconciler_Deletion] and the pass on it. *)
Definition deletion_route : HTTPRoute :=
  route true None ["app.my-domain1.com"; "api.my-domain2.it"].
Definition deletion_world : World mock.mockDNSProvider apiServer :=
  world mock.new deletion_route.
Definition deletion_run : option error * World mock.mockDNSProvider apiServer :=
  Reconcile (reconciler false) testKey deletion_world.

(** A steady-state pass that succeeds: one hostname was dropped from the
    route, one is kept and one is new. *)
Definition steady_route : HTTPRoute :=
  route false (Some "old.my-domain1.com,app.my-domain1.com")
    ["app.my-domain1.com"; "new.my-domain2.it"].
Definition steady_world : World mock.mockDNSProvider apiServer :=
  world mock.new steady_route.
Definition steady_read : World mock.mockDNSProvider apiServer :=
  (apiGet testKey steady_world).2.
Definition steady_run : option error * World mock.mockDNSProvider apiServer :=
  Reconcile (reconciler false) testKey steady_world.

(** A steady-state pass against the OPNsense provider and an empty
    backend: two hostnames were dropped from the route, and neither has
    an override to delete. *)
Definition orphan_route : HTTPRoute :=
  route false (Some "a.my-domain1.com,b.my-domain1.com") ["app.my-domain1.com"].
Definition orphan_world : World fake.fakeOPNsense apiServer :=
  world fake.newFakeOPNsense orphan_route.
Definition orphan_read : World fake.fakeOPNsense apiServer :=
  (apiGet testKey orphan_world).2.
Definition orphan_run : option error * World fake.fakeOPNsense apiServer :=
  Reconcile (reconciler true) testKey orphan_world.
(** The call that fails in that pass. *)
Definition orphan_failure : event :=
  EvDelete "a.my-domain1.com" "A"
    (Some (Errorf "opnsense: no existing override found for %s/%s"
             [ArgStr "a.my-domain1.com"; ArgStr "A"])).

(** A steady-state pass on a route whose two hostnames were swapped. *)
Definition swapped_route : HTTPRoute :=
  route false (Some "a.my-domain1.com,b.my-domain1.com")
    ["b.my-domain1.com"; "a.my-domain1.com"].
Definition swapped_world : World mock.mockDNSProvider apiServer :=
  world mock.new swapped_route.
Definition swapped_read : World mock.mockDNSProvider apiServer :=
  (apiGet testKey swapped_world).2.
Definition swapped_run : option error * World mock.mockDNSProvider apiServer :=
  Reconcile (reconciler true) testKey swapped_world.

(** A steady-state pass on a route whose previous set names a removed
    hostname twice. *)
Definition twice_route : HTTPRoute :=
  route false (Some "a.my-domain1.com,a.my-domain1.com") [].
Definition twice_world : World mock.mockDNSProvider apiServer :=
  world mock.new twice_route.
Definition twice_read : World mock.mockDNSProvider apiServer :=
  (apiGet testKey twice_world).2.
Definition twice_run : option error * World mock.mockDNSProvider apiServer :=
  Reconcile (reconciler false) testKey twice_world.

End memory.

(** ** Tables used in the examples *)

(** A table whose only entry is the degenerate wildcard ["*."]. *)
Definition star_only : DomainMap := {| entries := {["*." := "10.0.0.1"]} |}.

(** The table of [TestLookupIPWildcard]. *)
Definition wildcard_map : DomainMap :=
  {| entries := {["*.mydomain.com" := "10.0.0.1"; "app2.mydomain.com" := "10.0.0.2"]} |}.

(** The table of [TestLookupIPWildcardWithBaseDomain]. *)
Definition wildcard_base_map : DomainMap :=
  {| entries := {[ "*.mydomain.com" := "10.0.0.1"; "app2.mydomain.com" := "10.0.0.2";
                   "mydomain.com" := "10.0.0.3"; "*.other.mydomain.com" := "10.0.0.4" ]} |}.

(** * Properties *)

(** ** Byte strings *)

Section StringFacts.

Implicit Types s t u : string.

Lemma app_nil_s t : EmptyString +:+ t = t.
Proof. reflexivity. Qed.

Lemma app_cons_s c s t : String c s +:+ t = String c (s +:+ t).
Proof. reflexivity. Qed.

Lemma app_empty_r s : s +:+ EmptyString = s.
Proof. induction s as [|c s IH]; [done | by rewrite app_cons_s, IH]. Qed.

Lemma app_assoc_s s t u : (s +:+ t) +:+ u = s +:+ t +:+ u.
Proof. induction s as [|c s IH]; [done | by rewrite !app_cons_s, IH]. Qed.

Lemma length_app_s s t : String.length (s +:+ t) = String.length s + String.length t.
Proof. induction s as [|c s IH]; [done | rewrite app_cons_s; simpl; by rewrite IH]. Qed.

Lemma take_drop_bytes n s : take_bytes n s +:+ drop_bytes n s = s.
Proof.
  revert s. induction n as [|n IH]; intros [|c s]; simpl; try done.
  by rewrite app_cons_s, IH.
Qed.

Lemma drop_bytes_app s t : drop_bytes (String.length s) (s +:+ t) = t.
Proof. induction s as [|c s IH]; [done | by rewrite app_cons_s]. Qed.

Lemma take_bytes_app s t : take_bytes (String.length s) (s +:+ t) = s.
Proof. induction s as [|c s IH]; [done | rewrite app_cons_s; simpl; by rewrite IH]. Qed.

Lemma length_drop_bytes n s : String.length (drop_bytes n s) = String.length s - n.
Proof. revert s. induction n as [|n IH]; intros [|c s]; simpl; auto with lia. Qed.

Lemma slice_from_app s t : slice_from (s +:+ t) (len s) = t.
Proof. unfold slice_from, len. rewrite Nat2Z.id. apply drop_bytes_app. Qed.

Lemma slice_to_app s t : slice_to (s +:+ t) (len s) = s.
Proof. unfold slice_to, len. rewrite Nat2Z.id. apply take_bytes_app. Qed.

Lemma len_app s t : len (s +:+ t) = (len s + len t)%Z.
Proof. unfold len. rewrite length_app_s. lia. Qed.

Lemma len_nonneg s : (0 <= len s)%Z.
Proof. unfold len. lia. Qed.

End StringFacts.

(** ** Dots, labels and [strings.Index] *)

Section LabelFacts.

Implicit Types s t l r : string.

Lemma Index_dot_cons c s :
  Index (String c s) "." =
    if bool_decide (c = "."%char) then 0%Z
    else if (Index s "." <? 0)%Z then (-1)%Z else (Index s "." + 1)%Z.
Proof.
  cbn [Index HasPrefix].
  destruct (bool_decide_reflect (c = "."%char)) as [->|Hc].
  - reflexivity.
  - rewrite bool_decide_eq_false_2 by congruence. reflexivity.
Qed.

Lemma Index_dot_empty : Index EmptyString "." = (-1)%Z.
Proof. reflexivity. Qed.

(** [strings.Index(s, ".")] finds the end of the first label. *)
Lemma Index_cut s :
  match cut_label s with
  | None => Index s "." = (-1)%Z
  | Some (l, r) =>
      Index s "." = len l /\ s = l +:+ "." +:+ r /\ dotless l
  end.
Proof.
  induction s as [|c s IH]; [reflexivity|].
  rewrite Index_dot_cons. cbn [cut_label].
  destruct (bool_decide_reflect (c = "."%char)) as [->|Hc].
  - repeat split.
  - destruct (cut_label s) as [[l r]|] eqn:Hcut.
    + destruct IH as (Hi & Hs & Hl). rewrite Hi.
      pose proof (len_nonneg l).
      destruct (Z.ltb_spec (len l) 0); [lia|].
      repeat split.
      * unfold len. simpl. lia.
      * by rewrite app_cons_s, <- Hs.
      * unfold dotless. cbn [cut_label].
        rewrite bool_decide_eq_false_2 by done. unfold dotless in Hl. by rewrite Hl.
    + rewrite IH. reflexivity.
Qed.

Lemma Index_range s : (-1 <= Index s "." < len s)%Z \/ (s = EmptyString /\ Index s "." = (-1)%Z).
Proof.
  pose proof (Index_cut s) as H. destruct (cut_label s) as [[l r]|].
  - destruct H as (Hi & Hs & _). left. rewrite Hi.
    assert (len s = len l + 1 + len r)%Z as ->.
    { rewrite Hs, !len_app. unfold len at 2. simpl. lia. }
    pose proof (len_nonneg l). pose proof (len_nonneg r). lia.
  - destruct s; [by right|]. left. rewrite H. unfold len. simpl. lia.
Qed.

Lemma cut_label_slices s l r :
  cut_label s = Some (l, r) ->
  slice_to s (Index s ".") = l /\ slice_from s (Index s "." + 1) = r.
Proof.
  intros Hcut. pose proof (Index_cut s) as H. rewrite Hcut in H.
  destruct H as (Hi & Hs & _). rewrite Hi. split.
  - rewrite Hs. apply slice_to_app.
  - rewrite Hs at 1. rewrite <- app_assoc_s.
    replace (len l + 1)%Z with (len (l +:+ ".")) by (rewrite len_app; reflexivity).
    apply slice_from_app.
Qed.

Lemma cut_label_app l r : dotless l -> cut_label (l +:+ "." +:+ r) = Some (l, r).
Proof.
  unfold dotless. induction l as [|c l IH]; intros Hl; [reflexivity|].
  rewrite app_cons_s. cbn [cut_label] in *.
  destruct (bool_decide (c = "."%char)); [done|].
  destruct (cut_label l) as [[? ?]|]; [done|]. by rewrite IH.
Qed.

Lemma cut_label_length s l r :
  cut_label s = Some (l, r) -> String.length s = String.length l + 1 + String.length r.
Proof.
  intros Hcut. pose proof (Index_cut s) as H. rewrite Hcut in H.
  destruct H as (_ & -> & _). rewrite !length_app_s. simpl. lia.
Qed.

Lemma labels_cut s :
  labels s = match cut_label s with
             | None => [s]
             | Some (l, r) => l :: labels r
             end.
Proof.
  induction s as [|c s IH]; [reflexivity|].
  cbn [labels cut_label]. destruct (bool_decide (c = "."%char)); [reflexivity|].
  rewrite IH. by destruct (cut_label s) as [[l r]|].
Qed.

Lemma labels_nonempty s : labels s <> [].
Proof. rewrite labels_cut. by destruct (cut_label s) as [[l r]|]. Qed.

Lemma Join_cons l ls :
  ls <> [] -> Join (l :: ls) "." = l +:+ "." +:+ Join ls ".".
Proof. by destruct ls. Qed.

Lemma Join_labels s : Join (labels s) "." = s.
Proof.
  remember (String.length s) as n eqn:Hn. revert s Hn.
  induction n as [n IH] using lt_wf_ind. intros s ->.
  rewrite labels_cut. pose proof (Index_cut s) as H.
  destruct (cut_label s) as [[l r]|] eqn:Hcut; [|reflexivity].
  destruct H as (_ & Hs & _).
  rewrite Join_cons by apply labels_nonempty.
  rewrite (IH (String.length r)); [by rewrite <- Hs | | reflexivity].
  apply cut_label_length in Hcut. lia.
Qed.

Lemma labels_app l r : dotless l -> labels (l +:+ "." +:+ r) = l :: labels r.
Proof. intros Hl. by rewrite labels_cut, cut_label_app. Qed.

End LabelFacts.

(** ** [strings.TrimSuffix(s, ".")] removes one trailing dot, if any *)

Section TrimFacts.

Implicit Types s t : string.

Lemma HasSuffix_dot_app t : HasSuffix (t +:+ ".") "." = true.
Proof.
  unfold HasSuffix. rewrite len_app.
  replace (len t + len "." - len ".")%Z with (len t) by lia.
  rewrite slice_from_app, bool_decide_eq_true_2 by done.
  pose proof (len_nonneg t). rewrite andb_true_r. apply Z.leb_le. lia.
Qed.

Lemma TrimSuffix_dot_app t : TrimSuffix (t +:+ ".") "." = t.
Proof.
  unfold TrimSuffix. rewrite HasSuffix_dot_app, len_app.
  replace (len t + len "." - len ".")%Z with (len t) by lia.
  apply slice_to_app.
Qed.

Lemma TrimSuffix_dot_cases s :
  (HasSuffix s "." = true /\ s = TrimSuffix s "." +:+ ".")
  \/ (HasSuffix s "." = false /\ TrimSuffix s "." = s).
Proof.
  unfold TrimSuffix. destruct (HasSuffix s ".") eqn:Hsuf; [left|right]; split; try done.
  unfold HasSuffix in Hsuf. apply andb_true_iff in Hsuf as [_ Hdrop].
  apply bool_decide_eq_true_1 in Hdrop.
  unfold slice_from in Hdrop. unfold slice_to.
  transitivity (take_bytes (Z.to_nat (len s - len ".")) s
                +:+ drop_bytes (Z.to_nat (len s - len ".")) s).
  - by rewrite take_drop_bytes.
  - by rewrite Hdrop.
Qed.

Lemma TrimSuffix_dot_length s : String.length (TrimSuffix s ".") <= String.length s.
Proof.
  destruct (TrimSuffix_dot_cases s) as [[_ Hs]|[_ ->]]; [|done].
  rewrite Hs at 2. rewrite length_app_s. lia.
Qed.

End TrimFacts.

(** ** DomainMap.LookupIP *)

Section LookupFacts.

Variable dm : DomainMap.

Lemma walk_keys_single s :
  walk_keys [s] = if bool_decide (s = EmptyString) then [] else [s].
Proof. cbn [walk_keys Join]. by destruct (bool_decide (s = EmptyString)). Qed.

(** The loop consults exactly the keys of [walk_keys], in that order. *)
Lemma LookupIP_loop_keys fuel h :
  String.length h < fuel ->
  LookupIP_loop fuel dm h = first_match (entries dm) (walk_keys (labels h)).
Proof.
  revert h. induction fuel as [|fuel IH]; intros h Hfuel; [lia|].
  cbn [LookupIP_loop].
  destruct (bool_decide_reflect (h = EmptyString)) as [->|Hne]; [reflexivity|].
  rewrite labels_cut.
  pose proof (Index_cut h) as HI.
  destruct (cut_label h) as [[l r]|] eqn:Hcut.
  - destruct HI as (Hidx & Hh & _).
    destruct (cut_label_slices _ _ _ Hcut) as [_ Hr].
    pose proof (labels_nonempty r) as Hlr.
    cbn [walk_keys]. rewrite Join_cons, Join_labels, <- Hh by done.
    rewrite bool_decide_eq_false_2 by done.
    destruct (labels r) as [|l' ls'] eqn:Hlabels; [done|].
    cbn [app first_match].
    destruct (entries dm !! h); [reflexivity|].
    rewrite Hr. pose proof (len_nonneg l).
    destruct (Z.ltb_spec (Index h ".") 0); [lia|].
    destruct (entries dm !! ("*." +:+ r)); [reflexivity|].
    rewrite <- Hlabels. apply IH. apply cut_label_length in Hcut. lia.
  - rewrite walk_keys_single, bool_decide_eq_false_2 by done.
    cbn [first_match]. destruct (entries dm !! h); [reflexivity|].
    rewrite HI. reflexivity.
Qed.

(** Any larger number of iterations gives the same answer: the loop has
    returned before the bound is reached. *)
Lemma LookupIP_loop_fuel fuel h :
  String.length h < fuel ->
  LookupIP_loop fuel dm h = LookupIP_loop (S (String.length h)) dm h.
Proof. intros Hfuel. rewrite !LookupIP_loop_keys by lia. reflexivity. Qed.

Lemma LookupIP_keys hostname :
  LookupIP dm hostname = priority_walk dm hostname.
Proof. unfold LookupIP, priority_walk. apply LookupIP_loop_keys. lia. Qed.

End LookupFacts.

Section WalkFacts.

Implicit Types (tbl : gmap string string) (ls keys : list string).

(** The two key lists differ only by the key ["*."], which the document's
    wording consults at a name of one label. *)
Lemma first_match_spec_keys tbl ls :
  tbl !! "*." = None ->
  first_match tbl (spec_keys ls) = first_match tbl (walk_keys ls).
Proof.
  intros Hstar. induction ls as [|l rest IH]; [reflexivity|].
  cbn [spec_keys walk_keys].
  destruct (bool_decide (Join (l :: rest) "." = EmptyString)); [reflexivity|].
  cbn [first_match]. destruct (tbl !! Join (l :: rest) "."); [reflexivity|].
  destruct rest as [|l' rest'].
  - cbn [Join app]. rewrite app_empty_r, Hstar. reflexivity.
  - cbn [app first_match]. by rewrite IH.
Qed.

Lemma first_match_singleton (k v : string) keys :
  first_match {[k := v]} keys =
    if bool_decide (k ∈ keys) then (v, true) else (EmptyString, false).
Proof.
  induction keys as [|k' keys IH]; [reflexivity|].
  cbn [first_match]. destruct (decide (k = k')) as [<-|Hne].
  - rewrite lookup_singleton_eq, bool_decide_eq_true_2; [done | by left].
  - rewrite lookup_singleton_ne, IH by done.
    assert (bool_decide (k ∈ keys) = bool_decide (k ∈ k' :: keys)) as ->; [|done].
    apply bool_decide_ext. rewrite elem_of_cons. split; [by right | by intros [?|?]].
Qed.

Lemma Join_cons_nonempty (l : string) ls :
  ls <> [] -> Join (l :: ls) "." <> EmptyString.
Proof. intros H. rewrite Join_cons by done. by destruct l. Qed.

Lemma walk_keys_cons (l : string) ls :
  ls <> [] ->
  walk_keys (l :: ls) =
    Join (l :: ls) "." :: ("*." +:+ Join ls ".") :: walk_keys ls.
Proof.
  intros H. cbn [walk_keys].
  rewrite bool_decide_eq_false_2 by by apply Join_cons_nonempty.
  by destruct ls.
Qed.

(** A wildcard key ["*." + D] is consulted for every name [p.D]. *)
Lemma wildcard_key_consulted (p D : string) :
  "*." +:+ D ∈ walk_keys (labels (p +:+ "." +:+ D)).
Proof.
  remember (String.length p) as n eqn:Hn. revert p Hn.
  induction n as [n IH] using lt_wf_ind. intros p ->.
  pose proof (Index_cut p) as Hp.
  destruct (cut_label p) as [[l r]|] eqn:Hcut.
  - destruct Hp as (_ & -> & Hl).
    rewrite !app_assoc_s, labels_app by done.
    rewrite walk_keys_cons by apply labels_nonempty.
    do 2 right. eapply IH; [|reflexivity].
    apply cut_label_length in Hcut. lia.
  - rewrite labels_app by done.
    rewrite walk_keys_cons, Join_labels by apply labels_nonempty.
    right. left.
Qed.

(** No consulted key is longer than the name by more than one byte. *)
Lemma walk_keys_length ls (k : string) :
  k ∈ walk_keys ls -> String.length k <= String.length (Join ls ".") + 1.
Proof.
  induction ls as [|l rest IH]; [by intros ?%elem_of_nil|].
  destruct rest as [|l' rest'].
  - rewrite walk_keys_single. case_bool_decide; [by intros ?%elem_of_nil|].
    intros ->%list_elem_of_singleton. cbn [Join]. lia.
  - rewrite walk_keys_cons, Join_cons by done.
    rewrite !elem_of_cons, !length_app_s. intros [->|[->|Hk]].
    + rewrite !length_app_s. lia.
    + rewrite length_app_s. simpl. lia.
    + specialize (IH Hk). lia.
Qed.

End WalkFacts.

(** *** The lookup against the priority walk *)

(** C1, as worded, fails: at the one-label name ["com"] the walk of the
    document consults the wildcard form ["*." + parent("com")], i.e. the
    key ["*."], and finds the entry; the code leaves the loop before any
    wildcard is looked up, because ["com"] has no dot. *)
Lemma LookupIP_not_reference_walk :
  LookupIP star_only "com" = (EmptyString, false)
  /\ reference_walk star_only "com" = ("10.0.0.1", true)
  /\ LookupIP star_only "com" <> reference_walk star_only "com".
Proof. vm_compute. repeat split. discriminate. Qed.

(** C1 (amended): for every domain map and every host name, [LookupIP]
    returns exactly the result of the priority walk in which, after one
    trailing dot is stripped, the names visited are the name and its
    successive parents as long as they are not empty, the exact key of the
    visited name [h] is consulted first and the wildcard key
    ["*." + parent(h)] next, the latter only when [h] still contains a dot;
    the first consulted key that has an entry decides, and without one the
    result is the empty target and [false].  For every map without an
    entry under the key ["*."] this is the reference walk of the document. *)
Theorem LookupIP_priority_walk (dm : DomainMap) (hostname : string) :
  LookupIP dm hostname = priority_walk dm hostname
  /\ (entries dm !! "*." = None -> LookupIP dm hostname = reference_walk dm hostname).
Proof.
  split; [apply LookupIP_keys|]. intros Hstar.
  rewrite LookupIP_keys. unfold priority_walk, reference_walk.
  symmetry. by apply first_match_spec_keys.
Qed.

Lemma LookupIP_priority_walk_witness :
  entries wildcard_map !! "*." = None
  /\ LookupIP wildcard_map "deep.nested.mydomain.com."
     = reference_walk wildcard_map "deep.nested.mydomain.com."
  /\ reference_walk wildcard_map "deep.nested.mydomain.com." = ("10.0.0.1", true).
Proof.
  split; [reflexivity|]. split; [|reflexivity].
  apply (proj2 (LookupIP_priority_walk wildcard_map "deep.nested.mydomain.com.")).
  reflexivity.
Defined.

(** The tables and cases of [TestLookupIP], [TestLookupIPWildcard] and
    [TestLookupIPWildcardWithBaseDomain]. *)
Example TestLookupIP :
  (fun h => LookupIP memory.testDomainMap h)
    <$> ["app.my-domain1.com"; "deep.nested.my-domain1.com"; "my-domain1.com";
         "service.my-domain2.it"; "app.my-domain1.com."; "unknown.com";
         "notmydomain.com"]
  = [("10.0.8.100", true); ("10.0.8.100", true); ("10.0.8.100", true);
     ("10.0.9.50", true); ("10.0.8.100", true); (EmptyString, false);
     (EmptyString, false)].
Proof. reflexivity. Qed.

Example TestLookupIPWildcard :
  (fun h => LookupIP wildcard_map h)
    <$> ["app1.mydomain.com"; "app2.mydomain.com"; "app3.mydomain.com";
         "deep.nested.mydomain.com"; "mydomain.com"; "other.com"]
  = [("10.0.0.1", true); ("10.0.0.2", true); ("10.0.0.1", true);
     ("10.0.0.1", true); (EmptyString, false); (EmptyString, false)].
Proof. reflexivity. Qed.

Example TestLookupIPWildcardWithBaseDomain :
  (fun h => LookupIP wildcard_base_map h)
    <$> ["app1.mydomain.com"; "app2.mydomain.com"; "mydomain.com";
         "foo.other.mydomain.com"; "other.mydomain.com"]
  = [("10.0.0.1", true); ("10.0.0.2", true); ("10.0.0.3", true);
     ("10.0.0.4", true); ("10.0.0.1", true)].
Proof. reflexivity. Qed.

(** C7: a wildcard entry ["*." + D] matches every host name that lies one
    or more labels below [D] (with or without the trailing dot of a fully
    qualified name), but not the bare domain [D]; so with the single entry
    ["*.a.com" -> T1] the lookup of ["x.a.com"] returns [T1] and the lookup
    of ["a.com"] reports not-found. *)
Theorem wildcard_matches_below_not_bare (D T p hostname : string) :
  TrimSuffix hostname "." = p +:+ "." +:+ D ->
  LookupIP {| entries := {["*." +:+ D := T]} |} hostname = (T, true)
  /\ LookupIP {| entries := {["*." +:+ D := T]} |} D = (EmptyString, false).
Proof.
  intros Hhost. rewrite !LookupIP_keys. unfold priority_walk. cbn [entries].
  rewrite !first_match_singleton, Hhost. split.
  - rewrite bool_decide_eq_true_2; [done | apply wildcard_key_consulted].
  - rewrite bool_decide_eq_false_2; [done|].
    intros Hin%walk_keys_length. rewrite Join_labels, length_app_s in Hin.
    pose proof (TrimSuffix_dot_length D). simpl in Hin. lia.
Qed.

Lemma wildcard_matches_below_not_bare_witness :
  TrimSuffix "x.a.com" "." = "x" +:+ "." +:+ "a.com"
  /\ LookupIP {| entries := {["*.a.com" := "T1"]} |} "x.a.com" = ("T1", true)
  /\ LookupIP {| entries := {["*.a.com" := "T1"]} |} "a.com" = (EmptyString, false).
Proof.
  split; [reflexivity|].
  apply (wildcard_matches_below_not_bare "a.com" "T1" "x" "x.a.com"). reflexivity.
Defined.

(** ** SplitHostname *)

Section SplitFacts.

Implicit Types fqdn s : string.

Lemma SplitN_dot_2 s :
  SplitN s "." 2 =
    match cut_label s with
    | Some (l, r) => [l; r]
    | None => [s]
    end.
Proof.
  unfold SplitN. cbn [Z.eqb Z.ltb Z.compare].
  pose proof (Index_cut s) as HI.
  destruct (cut_label s) as [[l r]|] eqn:Hcut.
  - destruct (cut_label_slices _ _ _ Hcut) as [Hl Hr].
    destruct HI as (Hidx & Hs & _).
    assert (2 <= len s + 1)%Z as Hlen.
    { rewrite Hs, !len_app. pose proof (len_nonneg l). pose proof (len_nonneg r).
      unfold len at 2. simpl. lia. }
    destruct (Z.ltb_spec (len s + 1) 2); [lia|].
    change (Z.to_nat (2 - 1)) with 1. cbn [splitLoop].
    pose proof (len_nonneg l).
    destruct (Z.ltb_spec (Index s ".") 0); [lia|].
    change (len ".") with 1%Z. by rewrite Hl, Hr.
  - destruct (Z.ltb_spec (len s + 1) 2).
    + replace (len s + 1 - 1)%Z with (len s) by lia.
      destruct s; [reflexivity|]. unfold len in *. simpl in *. lia.
    + change (Z.to_nat (2 - 1)) with 1. cbn [splitLoop].
      rewrite HI. reflexivity.
Qed.

Lemma SplitHostname_cut fqdn :
  SplitHostname fqdn =
    match cut_label (TrimSuffix fqdn ".") with
    | Some (l, r) => (l, r)
    | None => (TrimSuffix fqdn ".", EmptyString)
    end.
Proof.
  unfold SplitHostname. rewrite SplitN_dot_2.
  by destruct (cut_label (TrimSuffix fqdn ".")) as [[l r]|].
Qed.

Lemma dotless_no_suffix s : dotless s -> HasSuffix s "." = false.
Proof.
  intros Hs. destruct (TrimSuffix_dot_cases s) as [[_ Heq]|[? _]]; [|done].
  unfold dotless in Hs. rewrite Heq in Hs.
  revert Hs. generalize (TrimSuffix s "."). intros t.
  induction t as [|c t IH]; [done|].
  rewrite app_cons_s. cbn [cut_label].
  destruct (bool_decide (c = "."%char)); [done|].
  destruct (cut_label (t +:+ ".")) as [[? ?]|]; [done|]. tauto.
Qed.

End SplitFacts.

(** ** The reconciler: what a pass does, loop by loop *)

Section PassFacts.

Import controller Trace.

Context {D K : Type} `{!dns.Provider D} `{!Cluster K} `{!HostnamesJSON}.

Implicit Types (w : World D K) (hs : list string) (evs : list event).

Lemma dnsDelete_run h w :
  exists res d',
    dns.Delete h "A" (dnsWorld w) = (res, d')
    /\ dnsDelete h "A" w =
         (res, {| dnsWorld := d'; cluster := cluster w;
                  trace := trace w ++ [EvDelete h "A" res] |}).
Proof.
  unfold dnsDelete, onProvider.
  destruct (dns.Delete h "A" (dnsWorld w)) as [res d']. eauto.
Qed.


Lemma removed_cons_in prev current h :
  h ∈ current -> removed (Some (h :: prev)) current = removed (Some prev) current.
Proof.
  intros Hin. unfold removed, elements.
  rewrite filter_cons. by case_decide.
Qed.

Lemma removed_cons_notin prev current h :
  h ∉ current -> removed (Some (h :: prev)) current = h :: removed (Some prev) current.
Proof.
  intros Hin. unfold removed, elements.
  rewrite filter_cons. by case_decide.
Qed.

(** The first loop of a steady-state pass: the same, over the removed
    hostnames. *)
Lemma deleteRemoved_shape managed current w err w' :
  deleteRemoved managed current w = (err, w') ->
  cluster w' = cluster w
  /\ match err with
     | None => trace w' = trace w ++ (delete_ok <$> removed managed current)
     | Some e =>
         exists done h e0 rest,
           removed managed current = done ++ h :: rest
           /\ trace w' = trace w ++ (delete_ok <$> done) ++ [EvDelete h "A" (Some e0)]
           /\ e = Wrapf "deleting removed DNS record for %s: %w" [ArgStr h] e0
     end.
Proof.
  unfold deleteRemoved.
  assert (removed managed current = removed (Some (elements managed)) current) as ->
    by by destruct managed.
  generalize (elements managed). clear managed. intros prev.
  revert w. induction prev as [|h prev IH]; intros w Hrun.
  - inversion Hrun; subst. by rewrite app_nil_r.
  - cbn [forEach] in Hrun. unfold bind at 1 in Hrun.
    unfold Contains in Hrun. destruct (bool_decide_reflect (h ∈ current)) as [Hin|Hin];
      cbn [negb] in Hrun.
    + rewrite removed_cons_in by done. unfold ret at 1 in Hrun. by apply IH.
    + rewrite removed_cons_notin by done. unfold bind at 1 in Hrun.
      destruct (dnsDelete_run h w) as (res & d' & _ & Hcall). rewrite Hcall in Hrun.
      destruct res as [e0|]; cbn in Hrun.
      * inversion Hrun; subst. split; [done|].
        exists [], h, e0, (removed (Some prev) current). by rewrite app_nil_l.
      * apply IH in Hrun as [Hk Hrun]. split; [by rewrite Hk|].
        destruct err as [e|].
        -- destruct Hrun as (done & h' & e0 & rest & -> & Htr & ->).
           exists (h :: done), h', e0, rest. split; [done|]. split; [|done].
           rewrite Htr. cbn [trace]. by rewrite <- !app_assoc.
        -- rewrite Hrun. cbn [trace]. by rewrite <- app_assoc.
Qed.

Lemma onProvider_run {A} (call : D -> A * D) (ev : A -> event) w :
  exists a d',
    onProvider call ev w =
      (a, {| dnsWorld := d'; cluster := cluster w; trace := trace w ++ [ev a] |}).
Proof. unfold onProvider. destruct (call (dnsWorld w)) as [a d']. eauto. Qed.

Lemma onCluster_run {A} (call : K -> A * K) (ev : A -> event) w :
  exists a k',
    onCluster call ev w =
      (a, {| dnsWorld := dnsWorld w; cluster := k'; trace := trace w ++ [ev a] |}).
Proof. unfold onCluster. destruct (call (cluster w)) as [a k']. eauto. Qed.

(** The second loop of a steady-state pass makes [Exists], [Create] and
    [Upsert] calls only, and stops at the first that fails. *)
Lemma syncRecords_shape r hs w err w' :
  syncRecords r hs w = (err, w') ->
  cluster w' = cluster w
  /\ exists evs,
       trace w' = trace w ++ evs
       /\ match err with
          | None => Forall sync_ok evs
          | Some _ =>
              exists pre last,
                evs = pre ++ [last] /\ Forall sync_ok pre /\ sync_failed last
          end.
Proof.
  revert w. induction hs as [|h hs IH]; intros w Hrun.
  - inversion Hrun; subst. split; [done|]. exists []. by rewrite app_nil_r.
  - assert (forall w2 evs0,
              cluster w2 = cluster w -> trace w2 = trace w ++ evs0 ->
              Forall sync_ok evs0 ->
              syncRecords r hs w2 = (err, w') ->
              cluster w' = cluster w
              /\ exists evs,
                   trace w' = trace w ++ evs
                   /\ match err with
                      | None => Forall sync_ok evs
                      | Some _ =>
                          exists pre last,
                            evs = pre ++ [last] /\ Forall sync_ok pre /\ sync_failed last
                      end) as Hnext.
    { intros w2 evs0 Hk Htr Hok Hrest.
      apply IH in Hrest as (Hk' & evs & Htr' & Herr).
      split; [congruence|]. exists (evs0 ++ evs).
      split; [by rewrite Htr', Htr, app_assoc|].
      destruct err as [e|].
      - destruct Herr as (pre & last & -> & Hpre & Hlast).
        exists (evs0 ++ pre), last. rewrite app_assoc.
        split; [done|]. split; [by apply Forall_app|done].
      - by apply Forall_app. }
    unfold syncRecords in Hrun. cbn [forEach] in Hrun.
    match type of Hrun with context [forEach hs ?body] =>
      change (forEach hs body) with (syncRecords (D:=D) (K:=K) r hs) in Hrun end.
    unfold bind at 1 in Hrun.
    destruct (LookupIP (DomainMap_ r) h) as [ip [|]]; cbn [negb] in Hrun.
    2:{ unfold ret at 1 in Hrun. eapply (Hnext w []); eauto using app_nil_r. }
    destruct (Upsert r).
    + unfold bind at 1 in Hrun. unfold dnsUpsert in Hrun.
      match type of Hrun with context [onProvider ?c ?e w] =>
        destruct (onProvider_run c e w) as ([e0|] & d' & Hcall) end;
        rewrite Hcall in Hrun; cbn [ret] in Hrun.
      * inversion Hrun; subst. split; [done|]. eexists. split; [reflexivity|].
        eexists [], _. by rewrite app_nil_l.
      * eapply Hnext; [| |  |exact Hrun]; [done|reflexivity|].
        by apply Forall_singleton.
    + unfold bind at 1 in Hrun. unfold dnsExists in Hrun.
      match type of Hrun with context [onProvider ?c ?e w] =>
        destruct (onProvider_run c e w) as ([e0|[|]] & d' & Hcall) end;
        rewrite Hcall in Hrun; cbn [ret] in Hrun.
      * inversion Hrun; subst. split; [done|]. eexists. split; [reflexivity|].
        eexists [], _. by rewrite app_nil_l.
      * eapply Hnext; [| |  |exact Hrun]; [done|reflexivity|].
        by apply Forall_singleton.
      * unfold bind at 1 in Hrun. unfold dnsCreate in Hrun.
        match type of Hrun with context [onProvider ?c ?e ?w0] =>
          destruct (onProvider_run c e w0) as ([e1|] & d'' & Hcall') end;
          rewrite Hcall' in Hrun; cbn [ret] in Hrun.
        -- inversion Hrun; subst. split; [done|]. cbn [trace].
           eexists. split; [by rewrite <- app_assoc|].
           eexists [_], _. split; [reflexivity|]. split; [|done].
           by apply Forall_singleton.
        -- eapply Hnext; [| |  |exact Hrun]; [done|cbn [trace]; by rewrite <- app_assoc|].
           by repeat constructor.
Qed.


Lemma addFinalizer_form req :
  addFinalizer (D:=D) (K:=K) req
  = getThenUpdate req (fun o => AddFinalizer o finalizerName).
Proof. reflexivity. Qed.

Lemma writeManagedHostnames_form req current :
  writeManagedHostnames (D:=D) (K:=K) req current =
    getThenUpdate req
      (fun o => SetAnnotation o managedHostnamesAnnotation (Marshal current)).
Proof. reflexivity. Qed.

(** One run of a closure: a read, then at most one write. *)
Lemma getThenUpdate_shape req change w err w' :
  getThenUpdate req change w = (err, w') ->
  dnsWorld w' = dnsWorld w
  /\ exists evs,
       trace w' = trace w ++ evs
       /\ Forall (written_by change) evs
       /\ (err = None -> exists pre route, evs = pre ++ [EvUpdate (change route) None])
       /\ (forall obj, EvUpdate obj None ∈ evs -> err = None).
Proof.
  unfold getThenUpdate, bind, apiGet. intros Hrun.
  destruct (onCluster_run (Get req) (EvGet req) w) as (res & k' & Hcall).
  rewrite Hcall in Hrun. destruct res as [e|route].
  - inversion Hrun; subst. split; [done|]. eexists. split; [reflexivity|].
    split; [by apply Forall_singleton|]. split; [done|].
    intros obj Hin%list_elem_of_singleton. discriminate.
  - unfold apiUpdate in Hrun.
    match type of Hrun with context [onCluster ?c ?e ?w0] =>
      destruct (onCluster_run c e w0) as (res & k'' & Hcall') end.
    rewrite Hcall' in Hrun. inversion Hrun; subst. split; [done|]. cbn [trace].
    eexists. split; [by rewrite <- app_assoc|].
    split; [repeat constructor; by eexists|].
    split; [intros ->; by eexists [_], _|].
    intros obj Hin. apply elem_of_cons in Hin as [Hin|Hin%list_elem_of_singleton];
      [discriminate|]. by inversion Hin.
Qed.

(** The retried write: reads and writes of changed objects only; when it
    succeeds its last event is a successful write, and a successful write
    is always the end of it. *)
Lemma RetryOnConflict_shape steps req change w err w' :
  RetryOnConflict steps (getThenUpdate req change) w = (err, w') ->
  dnsWorld w' = dnsWorld w
  /\ exists evs,
       trace w' = trace w ++ evs
       /\ Forall (written_by change) evs
       /\ (0 < steps -> err = None ->
           exists pre route, evs = pre ++ [EvUpdate (change route) None])
       /\ (forall obj, EvUpdate obj None ∈ evs -> err = None).
Proof.
  revert w. induction steps as [|steps IH]; intros w Hrun.
  - inversion Hrun; subst. split; [done|]. exists []. rewrite app_nil_r.
    split; [done|]. split; [done|]. split; [lia|]. by intros obj ?%elem_of_nil.
  - cbn [RetryOnConflict] in Hrun. unfold bind at 1 in Hrun.
    destruct (getThenUpdate req change w) as [err1 w1] eqn:Hfn.
    apply getThenUpdate_shape in Hfn as (Hd1 & evs1 & Htr1 & Hby1 & Hok1 & Hw1).
    assert (err1 <> None -> forall obj, EvUpdate obj None ∉ evs1) as Hnow.
    { intros Hne obj Hin. by apply Hne, (Hw1 obj). }
    destruct err1 as [e1|].
    + destruct (IsConflict e1); [destruct steps as [|steps']|].
      * inversion Hrun; subst. split; [done|]. exists evs1.
        repeat split; try done;
          try (intros obj Hin; by destruct (Hnow ltac:(done) obj)).
      * apply IH in Hrun as (Hd & evs & Htr & Hby & Hok & Hw).
        split; [congruence|]. exists (evs1 ++ evs).
        split; [by rewrite Htr, Htr1, app_assoc|].
        split; [by apply Forall_app|]. split.
        -- intros _ Herr. destruct (Hok ltac:(lia) Herr) as (pre & route & ->).
           exists (evs1 ++ pre), route. by rewrite app_assoc.
        -- intros obj [Hin|Hin]%elem_of_app; [|by apply (Hw obj)].
           by destruct (Hnow ltac:(done) obj).
      * inversion Hrun; subst. split; [done|]. exists evs1.
        repeat split; try done;
          try (intros obj Hin; by destruct (Hnow ltac:(done) obj)).
    + inversion Hrun; subst. split; [done|]. exists evs1.
      repeat split; try done; try (intros _ _; by apply Hok1).
Qed.


(** The events of a pass on a route in steady state (not being deleted,
    finalizer in place), phase by phase:
    - the first loop fails at a removed hostname, or
    - it deletes all of them and the second loop fails at a call, or
    - both loops succeed and the annotation is written if
      [reflect.DeepEqual] tells the two lists apart. *)
Lemma steady_pass_shape r req w route w1 err w' :
  apiGet req w = (inr route, w1) ->
  IsZero (DeletionTimestamp route) = true ->
  ContainsFinalizer route finalizerName = true ->
  Reconcile r req w = (err, w') ->
  let prev := readManagedHostnames route in
  let cur := Hostnames route in
  (exists done h e rest,
      removed prev cur = done ++ h :: rest
      /\ trace w' = trace w1 ++ (delete_ok <$> done) ++ [EvDelete h "A" (Some e)]
      /\ err = Some (Wrapf "deleting removed DNS record for %s: %w" [ArgStr h] e)
      /\ cluster w' = cluster w1)
  \/ (exists pre last e,
        trace w' = trace w1 ++ (delete_ok <$> removed prev cur) ++ pre ++ [last]
        /\ Forall sync_ok pre /\ sync_failed last
        /\ err = Some e /\ cluster w' = cluster w1)
  \/ (exists sync writes,
        trace w' = trace w1 ++ (delete_ok <$> removed prev cur) ++ sync ++ writes
        /\ Forall sync_ok sync
        /\ Forall (written_by
                     (fun o => SetAnnotation o managedHostnamesAnnotation (Marshal cur)))
                  writes
        /\ if DeepEqual prev (Some cur)
           then writes = [] /\ err = None /\ cluster w' = cluster w1
           else (err = None ->
                 exists pre route',
                   writes = pre ++ [EvUpdate (SetAnnotation route'
                                                managedHostnamesAnnotation
                                                (Marshal cur)) None])
                /\ (forall obj, EvUpdate obj None ∈ writes -> err = None)).
Proof.
  intros Hget Hzero Hfin Hrun prev cur.
  unfold Reconcile in Hrun. unfold bind at 1 in Hrun. rewrite Hget in Hrun.
  rewrite Hzero, Hfin in Hrun. cbn [negb] in Hrun.
  fold prev cur in Hrun. unfold bind at 1 in Hrun.
  destruct (deleteRemoved prev cur w1) as [err1 w2] eqn:Hdel.
  apply deleteRemoved_shape in Hdel as [Hk2 Hdel].
  destruct err1 as [e1|].
  { left. inversion Hrun; subst.
    destruct Hdel as (done & h & e0 & rest & Hrem & Htr & ->).
    by exists done, h, e0, rest. }
  right. unfold bind at 1 in Hrun.
  destruct (syncRecords r cur w2) as [err2 w3] eqn:Hsync.
  apply syncRecords_shape in Hsync as (Hk3 & sync & Htr3 & Hsync).
  destruct err2 as [e2|].
  { left. inversion Hrun; subst.
    destruct Hsync as (pre & last & -> & Hpre & Hlast).
    exists pre, last, e2. rewrite Htr3, Hdel, <- !app_assoc.
    repeat split; try done. congruence. }
  right. destruct (DeepEqual prev (Some cur)) eqn:Heq; cbn [negb] in Hrun.
  - inversion Hrun; subst. exists sync, [].
    rewrite Htr3, Hdel, app_nil_r, <- !app_assoc.
    repeat split; try done. congruence.
  - unfold bind at 1 in Hrun. rewrite writeManagedHostnames_form in Hrun.
    match type of Hrun with context [RetryOnConflict ?n ?fn ?w0] =>
      destruct (RetryOnConflict n fn w0) as [err3 w4] eqn:Hretry end.
    apply RetryOnConflict_shape in Hretry as (_ & writes & Htr4 & Hby & Hok & Hw).
    exists sync, writes.
    assert (trace w' = trace w4 /\ (err = None <-> err3 = None)) as [-> Herr].
    { destruct err3; inversion Hrun; subst; split; try done. }
    rewrite Htr4, Htr3, Hdel, <- !app_assoc.
    repeat split; try done.
    + intros Hnone. apply Hok; [unfold DefaultRetry; lia | by apply Herr].
    + intros obj Hin. by apply Herr, (Hw obj).
Qed.

End PassFacts.

(** ** Reading traces *)

Section TraceFacts.

Import controller Trace.

Implicit Types (evs : list event) (hs : list string).

Lemma delete_calls_app evs1 evs2 :
  delete_calls (evs1 ++ evs2) = delete_calls evs1 ++ delete_calls evs2.
Proof.
  induction evs1 as [|ev evs1 IH]; [done|].
  destruct ev; cbn [delete_calls app]; by rewrite ?IH.
Qed.

Lemma delete_calls_ok hs : delete_calls (delete_ok <$> hs) = call_A <$> hs.
Proof. induction hs as [|h hs IH]; [done|]. cbn. by rewrite IH. Qed.

Lemma delete_calls_none evs :
  Forall (fun ev => is_delete ev = false) evs -> delete_calls evs = [].
Proof.
  induction 1 as [|ev evs Hev _ IH]; [done|]. by destruct ev.
Qed.

Lemma sync_ok_no_delete evs :
  Forall sync_ok evs -> Forall (fun ev => is_delete ev = false) evs.
Proof. intros Hall. eapply Forall_impl; [exact Hall|]. by intros []. Qed.

Lemma written_by_no_delete change evs :
  Forall (written_by change) evs -> Forall (fun ev => is_delete ev = false) evs.
Proof. intros Hall. eapply Forall_impl; [exact Hall|]. by intros []. Qed.

Lemma written_by_not_failed change evs ev :
  Forall (written_by change) evs -> ev ∈ evs ->
  provider_failed ev = false /\ is_delete ev = false /\ is_mutation ev = false.
Proof.
  intros Hall Hin. rewrite Forall_forall in Hall. specialize (Hall _ Hin).
  by destruct ev.
Qed.

Lemma occurrences_fmap_call_A h hs :
  occurrences (call_A h) (call_A <$> hs) = occurrences h hs.
Proof.
  unfold occurrences. induction hs as [|x hs IH]; [done|].
  rewrite fmap_cons, !filter_cons.
  destruct (decide (x = h)) as [->|Hne].
  - rewrite decide_True by done. cbn. by rewrite IH.
  - rewrite decide_False; [done|]. unfold call_A. congruence.
Qed.

Lemma occurrences_removed h prev cur :
  h ∉ cur -> occurrences h (removed prev cur) = occurrences h (elements prev).
Proof.
  intros Hh. unfold occurrences, removed.
  induction (elements prev) as [|x l IH]; [done|].
  rewrite !filter_cons. destruct (decide (x = h)) as [->|Hne].
  - rewrite decide_True by done. rewrite filter_cons, decide_True by done.
    cbn. by rewrite IH.
  - destruct (decide (x ∉ cur)); [|done].
    by rewrite filter_cons, decide_False.
Qed.

(** A check by evaluation that no call of a trace failed. *)
Lemma no_failed_delete evs :
  forallb (fun ev => negb (provider_failed ev)) evs = true ->
  forall h t e, EvDelete h t (Some e) ∉ evs.
Proof.
  rewrite forallb_forall. intros Hall h t e Hin%list_elem_of_In.
  by apply Hall in Hin.
Qed.

End TraceFacts.

(** ** The reconciler: properties of a pass *)

Section DeletionPass.

Import controller Trace.

Context {D K : Type} `{!dns.Provider D} `{!Cluster K} `{!HostnamesJSON}.


End DeletionPass.

Section SteadyPass.

Import controller Trace.

Context {D K : Type} `{!dns.Provider D} `{!Cluster K} `{!HostnamesJSON}.

Implicit Types (w : World D K).

Lemma pass_events_app w1 w' (evs : list event) :
  trace w' = trace w1 ++ evs -> pass_events w1 w' = evs.
Proof. intros Htr. unfold pass_events. by rewrite Htr, drop_app_length. Qed.

Lemma DeepEqual_spec a b : DeepEqual a b = true <-> a = b.
Proof.
  destruct a as [x|], b as [y|]; cbn; try done.
  rewrite bool_decide_eq_true. split; congruence.
Qed.

Lemma sync_failed_kind ev :
  sync_failed ev ->
  provider_failed ev /\ is_delete ev = false /\ is_write ev = false.
Proof. by destruct ev as [| | ? ? []| ? []| | | ? []]. Qed.

Lemma sync_ok_kind (evs : list event) ev :
  Forall sync_ok evs -> ev ∈ evs ->
  provider_failed ev = false /\ is_delete ev = false /\ is_write ev = false.
Proof.
  intros Hall Hin. rewrite Forall_forall in Hall. specialize (Hall _ Hin).
  by destruct ev as [| | ? ? []| ? []| | | ? []].
Qed.

Lemma delete_ok_kind (hs : list string) ev :
  ev ∈ delete_ok <$> hs ->
  provider_failed ev = false /\ is_mutation ev = false /\ is_write ev = false.
Proof. intros (h & -> & _)%list_elem_of_fmap. done. Qed.

(** Deletes come first: a list of deletes followed by a list without. *)
Lemma deletes_then_rest (dels rest : list event) i j ei ej :
  Forall (fun ev => is_mutation ev = false) dels ->
  Forall (fun ev => is_delete ev = false) rest ->
  (dels ++ rest) !! i = Some ei -> (dels ++ rest) !! j = Some ej ->
  is_delete ei -> is_mutation ej -> i < j.
Proof.
  intros Hdels Hrest Hi Hj Hdel Hmut.
  rewrite Forall_forall in Hdels. rewrite Forall_forall in Hrest.
  destruct (decide (i < length dels)) as [Hlt|Hge].
  - destruct (decide (j < length dels)) as [Hjlt|Hjge]; [|lia].
    rewrite lookup_app_l in Hj by done.
    apply list_elem_of_lookup_2, Hdels in Hj. rewrite Hj in Hmut. done.
  - rewrite lookup_app_r in Hi by lia.
    apply list_elem_of_lookup_2, Hrest in Hi. rewrite Hi in Hdel. done.
Qed.

Lemma wrote_spec (evs : list event) :
  wrote evs = true <-> exists obj res, EvUpdate obj res ∈ evs.
Proof.
  unfold wrote. rewrite existsb_exists. split.
  - intros (ev & Hin%list_elem_of_In & Hw). destruct ev; try done. eauto.
  - intros (obj & res & Hin%list_elem_of_In). eauto.
Qed.

Section Steady.

Variables (r : HTTPRouteReconciler) (req : NamespacedName) (w w1 w' : World D K).
Variables (route : HTTPRoute) (err : option error).

Hypothesis Hget : apiGet req w = (inr route, w1).
Hypothesis Hzero : IsZero (DeletionTimestamp route) = true.
Hypothesis Hfin : ContainsFinalizer route finalizerName = true.
Hypothesis Hrun : Reconcile r req w = (err, w').

Local Abbreviation prev := (readManagedHostnames route).
Local Abbreviation cur := (Hostnames route).
Local Abbreviation evs := (pass_events w1 w').

(** The three phases of [steady_pass_shape], on the events of the pass. *)
Lemma steady_pass_events :
  trace w' = trace w1 ++ pass_events w1 w'
  /\ ((exists done h e rest,
          removed prev cur = done ++ h :: rest
          /\ pass_events w1 w' = (delete_ok <$> done) ++ [EvDelete h "A" (Some e)]
          /\ err = Some (Wrapf "deleting removed DNS record for %s: %w" [ArgStr h] e)
          /\ cluster w' = cluster w1)
      \/ (exists pre last e,
            pass_events w1 w' = (delete_ok <$> removed prev cur) ++ pre ++ [last]
            /\ Forall sync_ok pre /\ sync_failed last
            /\ err = Some e /\ cluster w' = cluster w1)
      \/ (exists sync writes,
            pass_events w1 w' = (delete_ok <$> removed prev cur) ++ sync ++ writes
            /\ Forall sync_ok sync
            /\ Forall (written_by
                         (fun o => SetAnnotation o managedHostnamesAnnotation
                                     (Marshal cur)))
                      writes
            /\ if DeepEqual prev (Some cur)
               then writes = [] /\ err = None /\ cluster w' = cluster w1
               else (err = None ->
                     exists pre route',
                       writes = pre ++ [EvUpdate (SetAnnotation route'
                                                    managedHostnamesAnnotation
                                                    (Marshal cur)) None])
                    /\ (forall obj, EvUpdate obj None ∈ writes -> err = None))).
Proof.
  destruct (steady_pass_shape _ _ _ _ _ _ _ Hget Hzero Hfin Hrun)
    as [(dd & h & e & rest & Hrem & Htr & Herr & Hk)
       |[(pre & last & e & Htr & Hpre & Hlast & Herr & Hk)
        |(sync & writes & Htr & Hsync & Hby & Hw)]];
    rewrite (pass_events_app _ _ _ Htr); (split; [exact Htr|]).
  - left. by exists dd, h, e, rest.
  - right; left. by exists pre, last, e.
  - right; right. by exists sync, writes.
Qed.

(** The deletes of the pass: either the first loop stopped at a failing
    [Delete], or every removed hostname got its [Delete] and none failed. *)
Lemma steady_pass_deletes :
  (exists dd h e rest,
      removed prev cur = dd ++ h :: rest
      /\ evs = (delete_ok <$> dd) ++ [EvDelete h "A" (Some e)]
      /\ err = Some (Wrapf "deleting removed DNS record for %s: %w" [ArgStr h] e))
  \/ (delete_calls evs = call_A <$> removed prev cur
      /\ forall h t e, EvDelete h t (Some e) ∉ evs).
Proof.
  destruct steady_pass_events
    as [_ [(dd & h & e & rest & Hrem & Hevs & Herr & Hk)
          |[(pre & last & e & Hevs & Hpre & Hlast & Herr & Hk)
           |(sync & writes & Hevs & Hsync & Hby & Hw)]]].
  - left. by exists dd, h, e, rest.
  - right. rewrite Hevs. split.
    + rewrite !delete_calls_app, delete_calls_ok.
      rewrite (delete_calls_none pre) by by apply sync_ok_no_delete.
      destruct (sync_failed_kind _ Hlast) as (_ & Hnd & _).
      rewrite (delete_calls_none [last]) by by apply Forall_singleton.
      by rewrite !app_nil_r.
    + intros h t e' [Hin|[Hin|Hin%list_elem_of_singleton]%elem_of_app]%elem_of_app.
      * by apply delete_ok_kind in Hin as [? _].
      * by apply (sync_ok_kind _ _ Hpre) in Hin as [? _].
      * subst last. done.
  - right. rewrite Hevs. split.
    + rewrite !delete_calls_app, delete_calls_ok.
      rewrite (delete_calls_none sync) by by apply sync_ok_no_delete.
      rewrite (delete_calls_none writes) by by eapply written_by_no_delete.
      by rewrite !app_nil_r.
    + intros h t e' [Hin|[Hin|Hin]%elem_of_app]%elem_of_app.
      * by apply delete_ok_kind in Hin as [? _].
      * by apply (sync_ok_kind _ _ Hsync) in Hin as [? _].
      * by apply (written_by_not_failed _ _ _ Hby) in Hin as [? _].
Qed.

(** C3 (amended): in every steady-state pass [Delete(h, "A")] is called
    only for hostnames of the previously persisted set that the declared
    list lacks, in the order (and as often as) the previous set has them,
    up to and including the first [Delete] that fails, which ends the
    pass with its error; when no [Delete] fails, the calls are exactly
    those hostnames. *)
Theorem removed_hostnames_deleted_in_order :
  delete_calls evs `prefix_of` (call_A <$> removed prev cur)
  /\ ((forall h t e, EvDelete h t (Some e) ∉ evs) ->
      delete_calls evs = call_A <$> removed prev cur)
  /\ (forall h t e,
        EvDelete h t (Some e) ∈ evs ->
        last evs = Some (EvDelete h t (Some e)) /\ t = "A"
        /\ err = Some (Wrapf "deleting removed DNS record for %s: %w" [ArgStr h] e)).
Proof.
  destruct steady_pass_deletes
    as [(dd & h & e & rest & Hrem & Hevs & Herr)|[Hcalls Hnone]].
  - rewrite Hevs, Hrem. split; [|split].
    + rewrite delete_calls_app, delete_calls_ok, fmap_app, fmap_cons.
      by exists (call_A <$> rest); rewrite <- app_assoc.
    + intros Hnone. destruct (Hnone h "A" e). apply elem_of_app. right. by left.
    + intros h' t' e' [Hin|Hin%list_elem_of_singleton]%elem_of_app.
      * by apply delete_ok_kind in Hin as [? _].
      * inversion Hin; subst. by rewrite last_snoc.
  - split; [by rewrite Hcalls|]. split; [done|].
    intros h t e Hin. by destruct (Hnone h t e).
Qed.

(** C4: in every steady-state pass every [Delete] call comes, in the
    sequence of calls, before every [Create], [Update] and [Upsert]
    call. *)
Theorem deletes_precede_mutations (i j : nat) (ei ej : event) :
  evs !! i = Some ei -> evs !! j = Some ej ->
  is_delete ei -> is_mutation ej -> i < j.
Proof.
  destruct steady_pass_events
    as [_ [(dd & h & e & rest & Hrem & Hevs & Herr & Hk)
          |[(pre & last & e & Hevs & Hpre & Hlast & Herr & Hk)
           |(sync & writes & Hevs & Hsync & Hby & Hw)]]]; rewrite Hevs.
  - rewrite <- (app_nil_r (_ ++ [_])). apply deletes_then_rest; [|done].
    apply Forall_app. split; [|by apply Forall_singleton].
    apply Forall_forall. intros ev Hin. by apply delete_ok_kind in Hin as (_ & ? & _).
  - apply deletes_then_rest.
    + apply Forall_forall. intros ev Hin. by apply delete_ok_kind in Hin as (_ & ? & _).
    + apply Forall_app. split; [by apply sync_ok_no_delete|].
      apply Forall_singleton. by apply sync_failed_kind.
  - apply deletes_then_rest.
    + apply Forall_forall. intros ev Hin. by apply delete_ok_kind in Hin as (_ & ? & _).
    + apply Forall_app. split; [by apply sync_ok_no_delete|].
      by eapply written_by_no_delete.
Qed.

(** C5 (amended): at the end of a successful steady-state pass the
    managed-hostname annotation is written if and only if the declared
    hostname list is not the previously persisted list, element by
    element in the same order ([reflect.DeepEqual]; an absent or
    unreadable annotation, a nil slice, differs from every list); the
    pass then ends with the accepted write of the encoded declared list,
    and otherwise makes no resource write. *)
Theorem managed_hostnames_written_iff_lists_differ :
  err = None ->
  (wrote evs = true <-> prev <> Some cur)
  /\ (prev <> Some cur ->
      exists pre route',
        evs = pre ++ [EvUpdate (SetAnnotation route' managedHostnamesAnnotation
                                  (Marshal cur)) None]).
Proof.
  intros Herr.
  destruct steady_pass_events
    as [_ [(dd & h & e & rest & Hrem & Hevs & Herr' & Hk)
          |[(pre & last & e & Hevs & Hpre & Hlast & Herr' & Hk)
           |(sync & writes & Hevs & Hsync & Hby & Hw)]]]; [congruence..|].
  rewrite Hevs. destruct (DeepEqual prev (Some cur)) eqn:Heq.
  - apply DeepEqual_spec in Heq. destruct Hw as (-> & _ & _).
    split; [|done]. split; [|done]. rewrite wrote_spec.
    intros (obj & res & [Hin|[Hin|Hin%elem_of_nil]%elem_of_app]%elem_of_app); [| |done].
    + by apply delete_ok_kind in Hin as (_ & _ & ?).
    + by apply (sync_ok_kind _ _ Hsync) in Hin as (_ & _ & ?).
  - assert (prev <> Some cur) as Hne.
    { intros Heq'%DeepEqual_spec. congruence. }
    destruct Hw as [Hlast _]. destruct (Hlast Herr) as (pre & route' & ->).
    split.
    + split; [done|]. intros _. apply wrote_spec. eexists _, _.
      rewrite !elem_of_app. do 3 right. by left.
    + intros _. eexists _, route'. by rewrite !app_assoc.
Qed.

(** C6: in every steady-state pass, when a provider call fails ([Delete]
    of a removed hostname, [Exists], [Create] or [Upsert]; the reconciler
    itself never calls [Update]), that call is the last thing the pass
    does: the pass returns an error, has made no resource write, and the
    API server is as the initial read left it. *)
Theorem provider_failure_aborts_without_write (ev : event) :
  ev ∈ evs -> provider_failed ev ->
  (exists e, err = Some e)
  /\ wrote evs = false
  /\ cluster w' = cluster w1
  /\ last evs = Some ev.
Proof.
  assert (forall l : list event, (forall ev', ev' ∈ l -> is_write ev' = false) ->
            wrote l = false) as Hnowrite.
  { intros l Hl. apply not_true_is_false. intros (obj & res & Hin)%wrote_spec.
    by apply Hl in Hin. }
  destruct steady_pass_events
    as [_ [(dd & h & e & rest & Hrem & Hevs & Herr & Hk)
          |[(pre & last & e & Hevs & Hpre & Hlast & Herr & Hk)
           |(sync & writes & Hevs & Hsync & Hby & Hw)]]]; rewrite Hevs.
  - intros [Hin|Hin%list_elem_of_singleton]%elem_of_app Hfailed.
    { apply delete_ok_kind in Hin as [Hok _]. by rewrite Hok in Hfailed. }
    subst ev. split; [by eexists|]. split; [|split; [done|by rewrite last_snoc]].
    apply Hnowrite. intros ev' [Hin|Hin%list_elem_of_singleton]%elem_of_app.
    + by apply delete_ok_kind in Hin as (_ & _ & ?).
    + by subst ev'.
  - intros [Hin|[Hin|Hin%list_elem_of_singleton]%elem_of_app]%elem_of_app Hfailed.
    { apply delete_ok_kind in Hin as [Hok _]. by rewrite Hok in Hfailed. }
    { apply (sync_ok_kind _ _ Hpre) in Hin as [Hok _]. by rewrite Hok in Hfailed. }
    subst ev. split; [by eexists|].
    split; [|split; [done|by rewrite app_assoc, last_snoc]].
    apply Hnowrite.
    intros ev' [Hin|[Hin|Hin%list_elem_of_singleton]%elem_of_app]%elem_of_app.
    + by apply delete_ok_kind in Hin as (_ & _ & ?).
    + by apply (sync_ok_kind _ _ Hpre) in Hin as (_ & _ & ?).
    + subst ev'. by apply sync_failed_kind.
  - intros [Hin|[Hin|Hin]%elem_of_app]%elem_of_app Hfailed.
    + apply delete_ok_kind in Hin as [Hok _]. by rewrite Hok in Hfailed.
    + apply (sync_ok_kind _ _ Hsync) in Hin as [Hok _]. by rewrite Hok in Hfailed.
    + apply (written_by_not_failed _ _ _ Hby) in Hin as [Hok _].
      by rewrite Hok in Hfailed.
Qed.

(** C9 (amended): the first loop treats the previously persisted set as
    a list: in a steady-state pass in which no [Delete] fails, a hostname
    that the declared list lacks gets one [Delete] call for each of its
    occurrences in the previous set. *)
Theorem one_delete_per_occurrence (h : string) :
  (forall h' t e, EvDelete h' t (Some e) ∉ evs) ->
  h ∉ cur ->
  occurrences (call_A h) (delete_calls evs) = occurrences h (elements prev).
Proof.
  intros Hnone Hh.
  destruct steady_pass_deletes
    as [(dd & h' & e & rest & Hrem & Hevs & Herr)|[Hcalls _]].
  - destruct (Hnone h' "A" e). rewrite Hevs. apply elem_of_app. right. by left.
  - by rewrite Hcalls, occurrences_fmap_call_A, occurrences_removed.
Qed.

End Steady.

End SteadyPass.


(** ** The OPNsense provider *)

Section UpsertFacts.

Context {B Body : Type} `{!opnsense.Backend B Body} `{!opnsense.Unicode}.

(** C8: for every record, [Upsert] is the composition of the other
    primitives of the provider: it calls [Exists] for the hostname and
    type of the record; if [Exists] fails, [Upsert] fails with that error
    (wrapped by [%w] under the context "opnsense: upsert check", so that
    [errors.Unwrap] gives it back); if [Exists] reports true the result of
    [Upsert] is that of [Update(record)], otherwise that of
    [Create(record)]. *)
Theorem Upsert_composes_primitives (p : opnsense.Provider) (record : dns.Record_) (b : B) :
  opnsense.Upsert p record b
  = opnsense.upsert_composite (H := opnsense.provider p)
      (Wrapf "opnsense: upsert check: %w" []) record b
  /\ (forall e, Unwrap (Wrapf "opnsense: upsert check: %w" [] e) = Some e)
  /\ match opnsense.Exists p (dns.Hostname record) (dns.Type_ record) b with
     | (inl e, b') =>
         exists err, opnsense.Upsert p record b = (Some err, b') /\ Unwrap err = Some e
     | (inr true, b') => opnsense.Upsert p record b = opnsense.Update p record b'
     | (inr false, b') => opnsense.Upsert p record b = opnsense.Create p record b'
     end.
Proof.
  unfold opnsense.Upsert, opnsense.upsert_composite. cbn [dns.Exists opnsense.provider].
  destruct (opnsense.Exists p (dns.Hostname record) (dns.Type_ record) b)
    as [[e|[|]] b']; repeat split; eauto.
Qed.

End UpsertFacts.

(** [TestUpsertCreatesAndUpdates]: the first upsert creates, the second
    updates the same override. *)
Example Upsert_creates_then_updates :
  let record value :=
    {| dns.Hostname := "app.example.com"; dns.Type_ := "A"; dns.Value := value;
       dns.TTL := 0; dns.Meta := None |} in
  let '(err1, f1) := opnsense.Upsert fake.newProvider (record "10.0.0.1") fake.newFakeOPNsense in
  let '(err2, f2) := opnsense.Upsert fake.newProvider (record "10.0.0.99") f1 in
  err1 = None /\ err2 = None
  /\ fake.Server <$> (map_to_list (fake.store f1)).*2 = ["10.0.0.1"]
  /\ fake.Server <$> (map_to_list (fake.store f2)).*2 = ["10.0.0.99"]
  /\ fake.calls f2 =
       ["GET /api/unbound/settings/searchHostOverride";
        "POST /api/unbound/settings/addHostOverride";
        "POST /api/unbound/service/reconfigure";
        "GET /api/unbound/settings/searchHostOverride";
        "GET /api/unbound/settings/searchHostOverride";
        "POST /api/unbound/settings/setHostOverride/uuid-1";
        "POST /api/unbound/service/reconfigure"].
Proof. vm_compute. repeat split. Qed.

(** ** What the provider looks an override up under *)

Section FoldFacts.

Context `{!opnsense.Unicode}.

Lemma all_bytes (c : ascii) : In c (map ascii_of_nat (seq 0 256)).
Proof.
  apply in_map_iff. exists (nat_of_ascii c). split; [apply ascii_nat_embedding|].
  apply in_seq. pose proof (nat_ascii_bounded c). lia.
Qed.

(** The first loop of [EqualFold] on two bytes: it goes on to the runes
    exactly when one of them is not ASCII, and two ASCII bytes pass
    exactly when their lower-case forms are equal. *)
Lemma byte_facts (sc tc : ascii) :
  (opnsense.RuneSelf <=? N.lor (N_of_ascii sc) (N_of_ascii tc))%N
  = negb (opnsense.ascii_byte sc && opnsense.ascii_byte tc)
  /\ (opnsense.ascii_byte sc && opnsense.ascii_byte tc = true ->
      opnsense.foldEq (N_of_ascii sc) (N_of_ascii tc)
      = bool_decide (opnsense.fold_byte sc = opnsense.fold_byte tc)).
Proof.
  assert (forallb (fun a => forallb (fun b =>
            Bool.eqb (opnsense.RuneSelf <=? N.lor (N_of_ascii a) (N_of_ascii b))%N
                     (negb (opnsense.ascii_byte a && opnsense.ascii_byte b))
            && implb (opnsense.ascii_byte a && opnsense.ascii_byte b)
                 (Bool.eqb (opnsense.foldEq (N_of_ascii a) (N_of_ascii b))
                    (bool_decide (opnsense.fold_byte a = opnsense.fold_byte b))))
            (map ascii_of_nat (seq 0 256))) (map ascii_of_nat (seq 0 256)) = true) as Hall
    by (vm_compute; reflexivity).
  rewrite forallb_forall in Hall. specialize (Hall sc (all_bytes sc)).
  rewrite forallb_forall in Hall. specialize (Hall tc (all_bytes tc)).
  apply andb_true_iff in Hall as [Hlor Hfold]. apply Bool.eqb_prop in Hlor.
  split; [exact Hlor|]. intros Hascii. rewrite Hascii in Hfold.
  by apply Bool.eqb_prop in Hfold.
Qed.

(** On ASCII strings [EqualFold] is equality of the lower-case forms,
    whatever the library does with other strings. *)
Lemma EqualFold_ascii (s t : string) :
  opnsense.ascii_only s = true -> opnsense.ascii_only t = true ->
  opnsense.EqualFold s t = bool_decide (opnsense.fold_case s = opnsense.fold_case t).
Proof.
  revert t. induction s as [|sc s IH]; intros [|tc t];
    cbn [opnsense.EqualFold opnsense.ascii_only opnsense.fold_case].
  - intros _ _. symmetry. by apply bool_decide_eq_true.
  - intros _ _. symmetry. by apply bool_decide_eq_false.
  - intros _ _. symmetry. by apply bool_decide_eq_false.
  - intros [Hsc Hs]%andb_true_iff [Htc Ht]%andb_true_iff.
    destruct (byte_facts sc tc) as [Hlor Heq]. cbv zeta.
    rewrite Hlor, Hsc, Htc. cbn [andb negb]. rewrite Heq by (by rewrite Hsc, Htc).
    rewrite (IH t Hs Ht).
    destruct (bool_decide_reflect (opnsense.fold_byte sc = opnsense.fold_byte tc)) as [Hb|Hb].
    + apply bool_decide_ext. rewrite Hb. split; [by intros -> | by intros [= ->]].
    + symmetry. apply bool_decide_eq_false. by intros [= ? ?].
Qed.

Lemma ascii_only_app (s t : string) :
  opnsense.ascii_only (s +:+ t) = opnsense.ascii_only s && opnsense.ascii_only t.
Proof.
  induction s as [|c s IH]; [by rewrite app_nil_s|].
  rewrite app_cons_s. cbn [opnsense.ascii_only]. by rewrite IH, andb_assoc.
Qed.

(** The two parts of an ASCII name are ASCII. *)
Lemma ascii_only_SplitHostname (fqdn : string) :
  opnsense.ascii_only fqdn = true ->
  opnsense.ascii_only (SplitHostname fqdn).1 = true
  /\ opnsense.ascii_only (SplitHostname fqdn).2 = true.
Proof.
  intros Hfqdn.
  assert (opnsense.ascii_only (TrimSuffix fqdn ".") = true) as Ht.
  { destruct (TrimSuffix_dot_cases fqdn) as [[_ Heq]|[_ ->]]; [|done].
    rewrite Heq, ascii_only_app in Hfqdn. by apply andb_true_iff in Hfqdn as [? _]. }
  rewrite SplitHostname_cut. pose proof (Index_cut (TrimSuffix fqdn ".")) as Hcut.
  destruct (cut_label (TrimSuffix fqdn ".")) as [[l r]|]; cbn [fst snd]; [|done].
  destruct Hcut as (_ & Heq & _). rewrite Heq, !ascii_only_app in Ht.
  by apply andb_true_iff in Ht as [Hl [_ Hr]%andb_true_iff].
Qed.

(** The loop returns the UUID of the first row that matches, and the
    empty string when none does. *)
Lemma firstMatch_first (pre post : list opnsense.hostRow) (row : opnsense.hostRow)
    (host domain recordType : string) :
  Forall (fun r => opnsense.rowMatches r host domain recordType = false) pre ->
  opnsense.rowMatches row host domain recordType = true ->
  opnsense.firstMatch (pre ++ row :: post) host domain recordType = opnsense.UUID row.
Proof.
  unfold opnsense.rowMatches. intros Hpre Hrow.
  induction Hpre as [|r pre Hr _ IH]; cbn [app opnsense.firstMatch].
  - by rewrite Hrow.
  - by rewrite Hr.
Qed.

Lemma firstMatch_none (rows : list opnsense.hostRow) (host domain recordType : string) :
  Forall (fun r => opnsense.rowMatches r host domain recordType = false) rows ->
  opnsense.firstMatch rows host domain recordType = EmptyString.
Proof.
  unfold opnsense.rowMatches. intros Hrows.
  induction Hrows as [|r rows Hr _ IH]; cbn [opnsense.firstMatch]; [done|].
  by rewrite Hr.
Qed.

(** When the search is answered with status 200 and rows, [findOverride]
    is its loop over the rows, run with the two parts of the name. *)
Lemma findOverride_rows {B Body : Type} `{!opnsense.Backend B Body}
    (p : opnsense.Provider) (fqdn recordType : string) (b b' : B)
    (resp : opnsense.Response Body) (rows : list opnsense.hostRow) :
  opnsense.doRequest p "GET" "unbound/settings/searchHostOverride" None b = (inr resp, b') ->
  opnsense.StatusCode resp = opnsense.StatusOK ->
  opnsense.decodeSearch (opnsense.Body_ resp) = inr rows ->
  opnsense.findOverride p fqdn recordType b
  = (inr (opnsense.firstMatch rows (SplitHostname fqdn).1 (SplitHostname fqdn).2 recordType),
     b').
Proof.
  intros Hdo Hstatus Hdecode. unfold opnsense.findOverride.
  rewrite Hdo, Hstatus, Z.eqb_refl. cbn [negb]. rewrite Hdecode.
  by destruct (SplitHostname fqdn) as [host domain].
Qed.

End FoldFacts.

(** ** SplitHostname *)

(** C10: [SplitHostname] strips at most one trailing dot and splits what
    is left at its first dot: the first label is the host part, all the
    rest the domain part; a name without a dot comes back whole with an
    empty domain; and when the domain part is not empty, host part, dot
    and domain part make up the dot-trimmed input again.  The provider
    stores a record under these two parts ([buildHostBody]) and looks it
    up under them ([findOverride]): when the search is answered with
    status 200 and rows, the result is the UUID of the first row whose
    hostname field matches the host part, whose domain field matches the
    domain part and whose type matches the record type, and the empty
    string when there is no such row.  Fields match as
    [strings.EqualFold] decides, which on ASCII strings is equality up
    to the case of letters. *)
Theorem SplitHostname_first_dot (fqdn : string) :
  let t := TrimSuffix fqdn "." in
  (fqdn = t +:+ "." \/ fqdn = t)
  /\ (forall l r, dotless l -> t = l +:+ "." +:+ r -> SplitHostname fqdn = (l, r))
  /\ (dotless t -> SplitHostname fqdn = (t, EmptyString))
  /\ (dotless fqdn -> SplitHostname fqdn = (fqdn, EmptyString))
  /\ ((SplitHostname fqdn).2 <> EmptyString ->
      (SplitHostname fqdn).1 +:+ "." +:+ (SplitHostname fqdn).2 = t)
  /\ (forall record : dns.Record_,
        dns.Hostname record = fqdn ->
        opnsense.buildHostBody record !! "hostname" = Some (SplitHostname fqdn).1
        /\ opnsense.buildHostBody record !! "domain" = Some (SplitHostname fqdn).2)
  /\ (forall (U : opnsense.Unicode) (B Body : Type) (backend : opnsense.Backend B Body)
             (p : opnsense.Provider) (other recordType : string) (b : B),
        SplitHostname other = SplitHostname fqdn ->
        opnsense.findOverride p other recordType b
        = opnsense.findOverride p fqdn recordType b)
  /\ (forall (U : opnsense.Unicode) (B Body : Type) (backend : opnsense.Backend B Body)
             (p : opnsense.Provider) (recordType : string) (b b' : B)
             (resp : opnsense.Response Body) (rows : list opnsense.hostRow),
        opnsense.doRequest p "GET" "unbound/settings/searchHostOverride" None b
        = (inr resp, b') ->
        opnsense.StatusCode resp = opnsense.StatusOK ->
        opnsense.decodeSearch (opnsense.Body_ resp) = inr rows ->
        (forall (pre : list opnsense.hostRow) (row : opnsense.hostRow)
                (post : list opnsense.hostRow),
           rows = pre ++ row :: post ->
           Forall (fun r => opnsense.rowMatches r (SplitHostname fqdn).1
                              (SplitHostname fqdn).2 recordType = false) pre ->
           opnsense.rowMatches row (SplitHostname fqdn).1 (SplitHostname fqdn).2
             recordType = true ->
           opnsense.findOverride p fqdn recordType b = (inr (opnsense.UUID row), b'))
        /\ (Forall (fun r => opnsense.rowMatches r (SplitHostname fqdn).1
                               (SplitHostname fqdn).2 recordType = false) rows ->
            opnsense.findOverride p fqdn recordType b = (inr EmptyString, b')))
  /\ (forall (U : opnsense.Unicode) (row : opnsense.hostRow) (recordType : string),
        opnsense.ascii_only fqdn = true ->
        opnsense.ascii_only recordType = true ->
        opnsense.ascii_only (opnsense.Hostname row) = true ->
        opnsense.ascii_only (opnsense.Domain row) = true ->
        opnsense.ascii_only (opnsense.RR row) = true ->
        (opnsense.rowMatches row (SplitHostname fqdn).1 (SplitHostname fqdn).2
           recordType = true
         <-> opnsense.fold_case (opnsense.Hostname row)
             = opnsense.fold_case (SplitHostname fqdn).1
             /\ opnsense.fold_case (opnsense.Domain row)
                = opnsense.fold_case (SplitHostname fqdn).2
             /\ opnsense.fold_case (opnsense.RR row) = opnsense.fold_case recordType)).
Proof.
  intros t. pose proof (SplitHostname_cut fqdn) as Hsplit. fold t in Hsplit.
  split; [|split; [|split; [|split; [|split; [|split; [|split; [|split]]]]]]].
  - destruct (TrimSuffix_dot_cases fqdn) as [[_ ?]|[_ ?]]; [by left | by right].
  - intros l r Hl Ht. by rewrite Hsplit, Ht, cut_label_app.
  - intros Ht. unfold dotless in Ht. by rewrite Hsplit, Ht.
  - intros Hdot. pose proof (dotless_no_suffix _ Hdot) as Hsuf.
    assert (t = fqdn) as Ht.
    { unfold t, TrimSuffix. by rewrite Hsuf. }
    unfold dotless in Hdot. by rewrite Hsplit, Ht, Hdot.
  - rewrite Hsplit. pose proof (Index_cut t) as Hcut.
    destruct (cut_label t) as [[l r]|]; cbn [fst snd]; [|done].
    destruct Hcut as (_ & Ht & _). by intros _.
  - intros record Hrec. unfold opnsense.buildHostBody. rewrite Hrec.
    destruct (SplitHostname fqdn) as [host domain]. by simplify_map_eq.
  - intros U B Body backend p other recordType b Hsame.
    unfold opnsense.findOverride. by rewrite Hsame.
  - intros U B Body backend p recordType b b' resp rows Hdo Hstatus Hdecode.
    rewrite (findOverride_rows p fqdn recordType b b' resp rows Hdo Hstatus Hdecode).
    split.
    + intros pre row post -> Hpre Hrow. by rewrite (firstMatch_first pre post row).
    + intros Hnone. by rewrite firstMatch_none.
  - intros U row recordType Hfqdn Htype Hhost Hdomain Hrr.
    destruct (ascii_only_SplitHostname fqdn Hfqdn) as [Hh Hd].
    unfold opnsense.rowMatches.
    rewrite !EqualFold_ascii by done.
    rewrite !andb_true_iff, !bool_decide_eq_true. tauto.
Qed.

Lemma SplitHostname_first_dot_witness :
  (dotless "sub"
   /\ TrimSuffix "sub.app.example.com." "." = "sub" +:+ "." +:+ "app.example.com"
   /\ SplitHostname "sub.app.example.com." = ("sub", "app.example.com"))
  /\ ((SplitHostname "sub.app.example.com.").2 <> EmptyString
      /\ (SplitHostname "sub.app.example.com.").1 +:+ "."
           +:+ (SplitHostname "sub.app.example.com.").2
         = "sub.app.example.com")
  /\ (dotless "localhost" /\ SplitHostname "localhost" = ("localhost", EmptyString))
  /\ (SplitHostname "sub.app.example.com" = SplitHostname "sub.app.example.com."
      /\ opnsense.findOverride fake.newProvider "sub.app.example.com" "A"
           fake.newFakeOPNsense
         = opnsense.findOverride fake.newProvider "sub.app.example.com." "A"
             fake.newFakeOPNsense)
  /\ (opnsense.doRequest fake.newProvider "GET" "unbound/settings/searchHostOverride"
        None fake.split_store
      = (inr (fake.respond 200 (fake.Rows fake.split_rows 3)), fake.split_searched)
      /\ fake.split_rows
         = [fake.toRow ("uuid-3", fake.override "sub" "app.example.com" "AAAA" "fd00::3");
            fake.toRow ("uuid-1", fake.override "sub.app" "example.com" "A" "10.0.0.1")]
           ++ fake.toRow ("uuid-2", fake.override "SUB" "App.Example.COM" "a" "10.0.0.2")
              :: []
      /\ opnsense.fold_case "SUB" = opnsense.fold_case "sub"
      /\ opnsense.fold_case "App.Example.COM" = opnsense.fold_case "app.example.com"
      /\ opnsense.fold_case "a" = opnsense.fold_case "A"
      /\ opnsense.findOverride fake.newProvider "sub.app.example.com." "A"
           fake.split_store
         = (inr "uuid-2", fake.split_searched)
      /\ opnsense.findOverride fake.newProvider "sub.app.example.com." "MX"
           fake.split_store
         = (inr EmptyString, fake.split_searched)).
Proof.
  pose proof (SplitHostname_first_dot "sub.app.example.com.")
    as (_ & Hsplit & _ & _ & Hround & _ & Hsame & Hfind & Hfold).
  pose proof (SplitHostname_first_dot "localhost") as (_ & _ & _ & Hwhole & _).
  split; [|split; [|split; [|split]]].
  - split; [reflexivity|]. split; [reflexivity|]. apply Hsplit; reflexivity.
  - assert ((SplitHostname "sub.app.example.com.").2 <> EmptyString) as Hne
      by (vm_compute; discriminate).
    split; [exact Hne|]. exact (Hround Hne).
  - split; [reflexivity|]. apply Hwhole. reflexivity.
  - split; [reflexivity|]. apply Hsame. reflexivity.
  - assert (opnsense.doRequest fake.newProvider "GET"
              "unbound/settings/searchHostOverride" None fake.split_store
            = (inr (fake.respond 200 (fake.Rows fake.split_rows 3)), fake.split_searched))
      as Hdo by reflexivity.
    assert (fake.split_rows
            = [fake.toRow ("uuid-3", fake.override "sub" "app.example.com" "AAAA" "fd00::3");
               fake.toRow ("uuid-1", fake.override "sub.app" "example.com" "A" "10.0.0.1")]
              ++ fake.toRow ("uuid-2", fake.override "SUB" "App.Example.COM" "a" "10.0.0.2")
                 :: []) as Hrows by reflexivity.
    assert (opnsense.fold_case "SUB" = opnsense.fold_case "sub") as Hhost by reflexivity.
    assert (opnsense.fold_case "App.Example.COM" = opnsense.fold_case "app.example.com")
      as Hdomain by reflexivity.
    assert (opnsense.fold_case "a" = opnsense.fold_case "A") as Hrr by reflexivity.
    split; [exact Hdo|]. split; [exact Hrows|]. split; [exact Hhost|].
    split; [exact Hdomain|]. split; [exact Hrr|].
    pose proof (Hfind fake.unicode fake.fakeOPNsense fake.body fake.backend fake.newProvider
                  "A" fake.split_store fake.split_searched
                  (fake.respond 200 (fake.Rows fake.split_rows 3)) fake.split_rows
                  Hdo ltac:(reflexivity) ltac:(reflexivity)) as [Hfirst _].
    pose proof (SplitHostname_first_dot "sub.app.example.com.")
      as (_ & _ & _ & _ & _ & _ & _ & Hfind' & _).
    pose proof (Hfind' fake.unicode fake.fakeOPNsense fake.body fake.backend fake.newProvider
                  "MX" fake.split_store fake.split_searched
                  (fake.respond 200 (fake.Rows fake.split_rows 3)) fake.split_rows
                  Hdo ltac:(reflexivity) ltac:(reflexivity)) as [_ Hnone].
    split.
    + apply (Hfirst _ _ _ Hrows).
      * repeat constructor.
      * apply (Hfold fake.unicode
                 (fake.toRow ("uuid-2", fake.override "SUB" "App.Example.COM" "a" "10.0.0.2"))
                 "A"); try reflexivity.
        split; [exact Hhost|]. split; [exact Hdomain|exact Hrr].
    + apply Hnone. rewrite Hrows. repeat constructor.
Defined.

(** ** The reconciler on the test doubles *)

Section Scenarios.

Import controller Trace memory.

(** C3, as worded, fails: the previous set names [a] and [b], the route
    declares neither, and the provider fails to delete [a] (there is no
    such override); the pass ends there, and no [Delete] is called for
    [b]. *)
Lemma removed_hostname_not_deleted :
  apiGet testKey orphan_world = (inr orphan_route, orphan_read)
  /\ IsZero (DeletionTimestamp orphan_route) = true
  /\ ContainsFinalizer orphan_route finalizerName = true
  /\ Reconcile (reconciler true) testKey orphan_world = orphan_run
  /\ removed (readManagedHostnames orphan_route) (Hostnames orphan_route)
     = ["a.my-domain1.com"; "b.my-domain1.com"]
  /\ delete_calls (pass_events orphan_read orphan_run.2) = [call_A "a.my-domain1.com"]
  /\ ~ (forall h,
          call_A h ∈ delete_calls (pass_events orphan_read orphan_run.2)
          <-> h ∈ elements (readManagedHostnames orphan_route)
              /\ h ∉ Hostnames orphan_route).
Proof.
  repeat (split; [reflexivity|]).
  intros Hall. destruct (Hall "b.my-domain1.com") as [_ Hcalled].
  assert (call_A "b.my-domain1.com" ∈ [call_A "a.my-domain1.com"]) as Hin.
  { apply Hcalled. split; apply (bool_decide_unpack _); by vm_compute. }
  apply list_elem_of_singleton in Hin. discriminate.
Qed.

Lemma removed_hostnames_deleted_in_order_witness :
  apiGet testKey steady_world = (inr steady_route, steady_read)
  /\ IsZero (DeletionTimestamp steady_route) = true
  /\ ContainsFinalizer steady_route finalizerName = true
  /\ Reconcile (reconciler false) testKey steady_world = (steady_run.1, steady_run.2)
  /\ (forall h t e, EvDelete h t (Some e) ∉ pass_events steady_read steady_run.2)
  /\ removed (readManagedHostnames steady_route) (Hostnames steady_route)
     = ["old.my-domain1.com"]
  /\ delete_calls (pass_events steady_read steady_run.2)
     = call_A <$> removed (readManagedHostnames steady_route) (Hostnames steady_route).
Proof.
  split; [reflexivity|]. split; [reflexivity|]. split; [reflexivity|].
  split; [reflexivity|].
  assert (forall h t e, EvDelete h t (Some e) ∉ pass_events steady_read steady_run.2)
    as Hnone by (apply no_failed_delete; reflexivity).
  split; [exact Hnone|]. split; [reflexivity|].
  apply (removed_hostnames_deleted_in_order (reconciler false) testKey steady_world
           steady_read steady_run.2 steady_route steady_run.1);
    try reflexivity. exact Hnone.
Defined.

Lemma deletes_precede_mutations_witness :
  apiGet testKey steady_world = (inr steady_route, steady_read)
  /\ IsZero (DeletionTimestamp steady_route) = true
  /\ ContainsFinalizer steady_route finalizerName = true
  /\ Reconcile (reconciler false) testKey steady_world = (steady_run.1, steady_run.2)
  /\ (exists ei ej,
        pass_events steady_read steady_run.2 !! 0 = Some ei
        /\ pass_events steady_read steady_run.2 !! 2 = Some ej
        /\ ei = delete_ok "old.my-domain1.com"
        /\ is_delete ei /\ is_mutation ej)
  /\ 0 < 2.
Proof.
  split; [reflexivity|]. split; [reflexivity|]. split; [reflexivity|].
  split; [reflexivity|].
  split; [eexists _, _; repeat split; reflexivity|].
  eapply (deletes_precede_mutations (reconciler false) testKey steady_world
            steady_read steady_run.2 steady_route steady_run.1);
    try reflexivity; exact I.
Defined.

(** C5, as worded, fails: the declared list has the two hostnames of the
    previous set in the other order, so the two are equal as sets, and
    the pass, which succeeds, writes the annotation. *)
Lemma swapped_hostnames_written :
  apiGet testKey swapped_world = (inr swapped_route, swapped_read)
  /\ IsZero (DeletionTimestamp swapped_route) = true
  /\ ContainsFinalizer swapped_route finalizerName = true
  /\ Reconcile (reconciler true) testKey swapped_world = (None, swapped_run.2)
  /\ same_set (elements (readManagedHostnames swapped_route)) (Hostnames swapped_route)
  /\ wrote (pass_events swapped_read swapped_run.2) = true
  /\ ~ (wrote (pass_events swapped_read swapped_run.2) = true
        <-> ~ same_set (elements (readManagedHostnames swapped_route))
                (Hostnames swapped_route)).
Proof.
  assert (same_set (elements (readManagedHostnames swapped_route))
            (Hostnames swapped_route)) as Hsame.
  { intros h. change (h ∈ ["a.my-domain1.com"; "b.my-domain1.com"]
                      <-> h ∈ ["b.my-domain1.com"; "a.my-domain1.com"]).
    rewrite !elem_of_cons. tauto. }
  repeat (split; [reflexivity|]). split; [exact Hsame|]. split; [reflexivity|].
  intros [Hwrote _]. by apply Hwrote.
Qed.

Lemma managed_hostnames_written_iff_lists_differ_witness :
  apiGet testKey steady_world = (inr steady_route, steady_read)
  /\ IsZero (DeletionTimestamp steady_route) = true
  /\ ContainsFinalizer steady_route finalizerName = true
  /\ Reconcile (reconciler false) testKey steady_world = (steady_run.1, steady_run.2)
  /\ steady_run.1 = None
  /\ (wrote (pass_events steady_read steady_run.2) = true
      <-> readManagedHostnames steady_route <> Some (Hostnames steady_route))
  /\ (readManagedHostnames steady_route <> Some (Hostnames steady_route) ->
      exists pre route',
        pass_events steady_read steady_run.2
        = pre ++ [EvUpdate (SetAnnotation route' managedHostnamesAnnotation
                              (Marshal (Hostnames steady_route))) None]).
Proof.
  split; [reflexivity|]. split; [reflexivity|]. split; [reflexivity|].
  split; [reflexivity|]. split; [reflexivity|].
  apply (managed_hostnames_written_iff_lists_differ (reconciler false) testKey
           steady_world steady_read steady_run.2 steady_route steady_run.1);
    reflexivity.
Defined.

Lemma provider_failure_aborts_without_write_witness :
  apiGet testKey orphan_world = (inr orphan_route, orphan_read)
  /\ IsZero (DeletionTimestamp orphan_route) = true
  /\ ContainsFinalizer orphan_route finalizerName = true
  /\ Reconcile (reconciler true) testKey orphan_world = (orphan_run.1, orphan_run.2)
  /\ orphan_failure ∈ pass_events orphan_read orphan_run.2
  /\ provider_failed orphan_failure
  /\ (exists e, orphan_run.1 = Some e)
  /\ wrote (pass_events orphan_read orphan_run.2) = false
  /\ cluster orphan_run.2 = cluster orphan_read
  /\ last (pass_events orphan_read orphan_run.2) = Some orphan_failure.
Proof.
  assert (orphan_failure ∈ pass_events orphan_read orphan_run.2) as Hin
    by (apply (list_elem_of_lookup_2 _ 0); reflexivity).
  assert (apiGet testKey orphan_world = (inr orphan_route, orphan_read)) as Hget
    by reflexivity.
  assert (IsZero (DeletionTimestamp orphan_route) = true) as Hzero by reflexivity.
  assert (ContainsFinalizer orphan_route finalizerName = true) as Hfin by reflexivity.
  assert (Reconcile (reconciler true) testKey orphan_world
          = (orphan_run.1, orphan_run.2)) as Hrun by reflexivity.
  split; [exact Hget|]. split; [exact Hzero|]. split; [exact Hfin|].
  split; [exact Hrun|]. split; [exact Hin|]. split; [exact I|].
  exact (provider_failure_aborts_without_write (reconciler true) testKey orphan_world
           orphan_read orphan_run.2 orphan_route orphan_run.1
           Hget Hzero Hfin Hrun orphan_failure Hin I).
Defined.

(** C9, as worded, fails: the previous set names the removed hostname
    twice, and the pass calls [Delete] for it twice. *)
Lemma duplicate_hostname_deleted_twice :
  apiGet testKey twice_world = (inr twice_route, twice_read)
  /\ IsZero (DeletionTimestamp twice_route) = true
  /\ ContainsFinalizer twice_route finalizerName = true
  /\ Reconcile (reconciler false) testKey twice_world = (None, twice_run.2)
  /\ readManagedHostnames twice_route = Some ["a.my-domain1.com"; "a.my-domain1.com"]
  /\ Hostnames twice_route = []
  /\ delete_calls (pass_events twice_read twice_run.2)
     = [call_A "a.my-domain1.com"; call_A "a.my-domain1.com"]
  /\ occurrences (call_A "a.my-domain1.com")
       (delete_calls (pass_events twice_read twice_run.2)) <> 1.
Proof. repeat (split; [reflexivity|]). vm_compute. discriminate. Qed.

Lemma one_delete_per_occurrence_witness :
  apiGet testKey twice_world = (inr twice_route, twice_read)
  /\ IsZero (DeletionTimestamp twice_route) = true
  /\ ContainsFinalizer twice_route finalizerName = true
  /\ Reconcile (reconciler false) testKey twice_world = (twice_run.1, twice_run.2)
  /\ (forall h' t e, EvDelete h' t (Some e) ∉ pass_events twice_read twice_run.2)
  /\ ("a.my-domain1.com" ∉ Hostnames twice_route)
  /\ occurrences (call_A "a.my-domain1.com")
       (delete_calls (pass_events twice_read twice_run.2))
     = occurrences "a.my-domain1.com" (elements (readManagedHostnames twice_route))
  /\ occurrences "a.my-domain1.com" (elements (readManagedHostnames twice_route)) = 2.
Proof.
  assert (forall h' t e, EvDelete h' t (Some e) ∉ pass_events twice_read twice_run.2)
    as Hnone by (apply no_failed_delete; reflexivity).
  assert ("a.my-domain1.com" ∉ Hostnames twice_route) as Hout
    by (apply (bool_decide_unpack _); by vm_compute).
  split; [reflexivity|]. split; [reflexivity|]. split; [reflexivity|].
  split; [reflexivity|]. split; [exact Hnone|]. split; [exact Hout|].
  split; [|reflexivity].
  apply (one_delete_per_occurrence (reconciler false) testKey twice_world
           twice_read twice_run.2 twice_route twice_run.1);
    try reflexivity; [exact Hnone | exact Hout].
Defined.

(** [TestHTTPRouteReconciler_Reconcile]: the first pass adds the
    finalizer, the second creates the record. *)
Example TestHTTPRouteReconciler_Reconcile :
  let '(err1, w1) := Reconcile (reconciler false) testKey (world mock.new fresh_route) in
  let '(err2, w2) := Reconcile (reconciler false) testKey w1 in
  err1 = None /\ err2 = None
  /\ mock.createdRecords (dnsWorld w1) = []
  /\ (Finalizers <$> object (cluster w1)) = Some [finalizerName]
  /\ ((fun record => (dns.Hostname record, dns.Type_ record, dns.Value record))
        <$> mock.createdRecords (dnsWorld w2))
     = [("app.my-domain1.com", "A", "10.0.8.100")].
Proof. vm_compute. repeat split. Qed.

(** [TestHTTPRouteReconciler_Deletion] *)
Example TestHTTPRouteReconciler_Deletion :
  deletion_run.1 = None
  /\ mock.deletedHosts (dnsWorld deletion_run.2)
     = ["app.my-domain1.com"; "api.my-domain2.it"]
  /\ (Finalizers <$> object (cluster deletion_run.2)) = Some [].
Proof. vm_compute. repeat split. Qed.

(** A route without annotation and without hostnames: the previous slice
    is nil, the declared one is empty, and the annotation is written. *)
Example nil_is_not_empty :
  let w := world mock.new (route false None []) in
  let '(err, w') := Reconcile (reconciler false) testKey w in
  err = None
  /\ readManagedHostnames (route false None []) = None
  /\ wrote (trace w') = true.
Proof. vm_compute. repeat split. Qed.

End Scenarios.
